(** * ShoppyApi: the products resource (routes/products.py)

    A shallow embedding of the five request handlers of
    [routes/products.py] and of the relational table they act on.

    - The handlers are written in a reader/state/exception monad [M]:
      the reader part is the request's environment (the clock read by
      [datetime.datetime.now()] and by the server default [now()], and
      the value drawn by [uuid.uuid4()]); the state part is the database
      behind the SQLAlchemy session; exceptions are Python's.
    - The table "products" is a finite map from primary keys to rows.
      The declared constraints (primary key, [nullable=False]) are
      enforced by the write operations, which raise [IntegrityError];
      a value outside the column type [Integer], or a LIMIT or OFFSET
      outside the range of the database, is refused with [DataError],
      and a text that holds NUL is refused by the driver with
      [ValueError].  The engine serves every other statement it is
      sent: a lost connection is outside the model, so a
      [SQLAlchemyError] comes only from a statement that is refused.
    - Every statement sent to the database is recorded, so that
      "no storage query" is a statement about the record.
    - [logger] calls have no effect on responses or storage and are
      left out. *)

From Stdlib Require Import ZArith NArith Ascii String.
From stdpp Require Import base tactics option list strings gmap sorting vector.

Local Open Scope Z_scope.
Local Open Scope string_scope.
Local Open Scope list_scope.

(** ** Identifiers and time *)

(** A UUID is a 128-bit integer ([uuid.UUID.int]). *)
Definition uuid : Type := dsig (λ n : N, (n < 2 ^ 128)%N).

Definition uuid_int (u : uuid) : N := `u.

(** Timestamps, as a number of clock ticks. *)
Definition datetime : Type := Z.

(** The two functions of Python's [uuid] module that the handlers and
    their clients rely on: the constructor [uuid.UUID(hex)], which raises
    [ValueError] ([None]) on a string that is not a UUID, and [str(u)],
    which a client uses to put a returned identifier back in a path.
    The library guarantees that the constructor reads back what [str]
    prints. *)
Class UuidLib := {
  UUID : string → option uuid;
  uuid_str : uuid → string;
  UUID_uuid_str : ∀ u, UUID (uuid_str u) = Some u
}.

(** ** Python strings and the column types *)

(** A Python [str] is modelled by the string of its UTF-8 bytes.  A
    code point is one byte that is not a continuation byte (10xxxxxx)
    followed by its continuation bytes, so [len(s)] is the number of
    bytes that are not continuation bytes. *)
Definition is_continuation (c : ascii) : bool :=
  (128 <=? N_of_ascii c)%N && (N_of_ascii c <? 192)%N.

Fixpoint py_len (s : string) : nat :=
  match s with
  | EmptyString => O
  | String c s => if is_continuation c then py_len s else S (py_len s)
  end.

(** Whether the string holds the character NUL (U+0000), which a text
    value sent to the database must not hold. *)
Fixpoint has_NUL (s : string) : bool :=
  match s with
  | EmptyString => false
  | String c s => if decide (c = "000"%char) then true else has_NUL s
  end.

(** The range of the column type [Integer]: a signed 32-bit integer. *)
Definition Integer_ok (z : Z) : bool :=
  bool_decide (-2147483648 ≤ z)%Z && bool_decide (z ≤ 2147483647)%Z.

(** The range of a LIMIT or OFFSET: not negative, and below 2^63. *)
Definition bigint_ok (z : Z) : bool :=
  bool_decide (0 ≤ z)%Z && bool_decide (z < 9223372036854775808)%Z.

(** ** The ORM class and the pydantic schemas *)

(** [class Product(Base)]: an ORM instance.  Every attribute except the
    key may hold [None]. *)
Module Product.
Record t := mk {
  id : uuid;
  name : option string;
  price : option Z;
  created_at : option datetime;
  updated_at : option datetime
}.
End Product.

(** A persisted row of the table "products".  [name] and [price] are
    declared [nullable=False]; the two timestamps are nullable columns
    with [server_default=text("now()")]. *)
Module ProductRow.
Record t := mk {
  name : string;
  price : Z;
  created_at : option datetime;
  updated_at : option datetime
}.
End ProductRow.

(** [class ProductBase(BaseModel)]: the response schema. *)
Module ProductBase.
Record t := mk {
  id : uuid;
  name : string;
  price : Z;
  created_at : datetime;
  updated_at : datetime
}.

(** Validation of an ORM instance against the schema
    ([from_attributes = True]): every field is required and
    [price] carries [Field(gt=0)]. *)
Definition from_orm (p : Product.t) : option t :=
  match Product.name p, Product.price p,
        Product.created_at p, Product.updated_at p with
  | Some n, Some pr, Some c, Some u =>
      if bool_decide (0 < pr) then Some (mk (Product.id p) n pr c u) else None
  | _, _, _, _ => None
  end.
End ProductBase.

(** [class ProductCreate(BaseModel)]: the body of POST /products. *)
Module ProductCreate.
Record t := mk {
  name : string;
  price : Z
}.

(** [name: str = Field(..., min_length=1, max_length=100)],
    [price: int = Field(gt=0)].  The lengths are numbers of code
    points. *)
Definition valid (b : t) : bool :=
  bool_decide (1 ≤ py_len (name b))%nat
  && bool_decide (py_len (name b) ≤ 100)%nat
  && bool_decide (0 < price b).
End ProductCreate.

(** A field of a model whose fields all default to [None]: absent from
    the body ([Unset]) or present with a value, possibly [null]. *)
Inductive field (A : Type) : Type :=
  | Unset : field A
  | Given : option A → field A.
Arguments Unset {A}.
Arguments Given {A} _.

(** One entry of [product.dict(exclude_unset=True)]: the key "name" or
    the key "price" with its value. *)
Inductive item : Type :=
  | name_item (value : option string)
  | price_item (value : option Z).

(** [class ProductUpdate(BaseModel)]: the body of PATCH /products/{id}. *)
Module ProductUpdate.
Record t := mk {
  name : field string;
  price : field Z
}.

(** [name: Optional[str] = Field(None, min_length=1, max_length=100)],
    [price: Optional[int] = Field(None, gt=0)]: the constraints bear
    on a value that is present; [null] passes. *)
Definition valid (b : t) : bool :=
  match name b with
  | Given (Some n) =>
      bool_decide (1 ≤ py_len n)%nat
      && bool_decide (py_len n ≤ 100)%nat
  | _ => true
  end
  &&
  match price b with
  | Given (Some p) => bool_decide (0 < p)
  | _ => true
  end.

(** [product.dict(exclude_unset=True)], in field order. *)
Definition dict_exclude_unset (b : t) : list item :=
  match name b with Unset => [] | Given v => [name_item v] end ++
  match price b with Unset => [] | Given v => [price_item v] end.
End ProductUpdate.

(** [setattr(product_to_update, key, value)]. *)
Definition setattr (p : Product.t) (kv : item) : Product.t :=
  match kv with
  | name_item v =>
      Product.mk (Product.id p) v (Product.price p)
                 (Product.created_at p) (Product.updated_at p)
  | price_item v =>
      Product.mk (Product.id p) (Product.name p) v
                 (Product.created_at p) (Product.updated_at p)
  end.

Definition set_updated_at (p : Product.t) (now : datetime) : Product.t :=
  Product.mk (Product.id p) (Product.name p) (Product.price p)
             (Product.created_at p) (Some now).

(** ** Exceptions, the database and the handler monad *)

Inductive Exn : Type :=
  | HTTPException (status_code : Z) (detail : string)
  | IntegrityError           (* sqlalchemy.exc, a SQLAlchemyError *)
  | CompileError             (* sqlalchemy.exc, a SQLAlchemyError *)
  | DataError                (* sqlalchemy.exc, a SQLAlchemyError *)
  | InvalidRequestError      (* sqlalchemy.exc, a SQLAlchemyError *)
  | ValueError.              (* builtin, raised by the database driver *)

Definition is_IntegrityError (e : Exn) : bool :=
  match e with IntegrityError => true | _ => false end.

Definition is_SQLAlchemyError (e : Exn) : bool :=
  match e with HTTPException _ _ | ValueError => false | _ => true end.

(** Statements sent to the database. *)
Inductive Stmt : Type :=
  | SELECT (key : uuid)
  | SELECT_ALL (order_by : string) (limit offset : Z)
  | INSERT (key : uuid)
  | UPDATE (key : uuid)
  | DELETE (key : uuid)
  | ROLLBACK.

(** Modelled from the spec: [lib/db.py] ([Base], [get_db]) is not among
    the sources.  The session that [Depends(get_db)] hands to a handler
    is taken, as the spec's persistence gateway, to wrap one transaction
    per request over the single table "products" and to provide
    get-by-key, list-with-order-limit-offset, insert-one,
    update-by-key and delete-by-key.  [table] is the committed content,
    [log] the statements sent so far. *)
Record Db := mkDb {
  table : gmap uuid ProductRow.t;
  log : list Stmt
}.

(** What a request reads from outside the database: the clock, and the
    identifier that [uuid.uuid4()] draws. *)
Record Env := mkEnv {
  clock : datetime;
  drawn_uuid : uuid
}.

Inductive outcome (A : Type) : Type :=
  | Return (a : A)
  | Raise (e : Exn).
Arguments Return {A} _.
Arguments Raise {A} _.

Definition M (A : Type) : Type := Env → Db → outcome A * Db.

#[global] Instance M_ret : MRet M := λ A a _ db, (Return a, db).

#[global] Instance M_bind : MBind M := λ A B f m env db,
  match m env db with
  | (Return a, db') => f a env db'
  | (Raise e, db') => (Raise e, db')
  end.

Definition raise {A} (e : Exn) : M A := λ _ db, (Raise e, db).

(** [try: body except ...: handler].  [handlers e] is the first
    [except] clause that matches [e], if any. *)
Definition try_except {A} (body : M A) (handlers : Exn → option (M A)) : M A :=
  λ env db,
    match body env db with
    | (Return a, db') => (Return a, db')
    | (Raise e, db') =>
        match handlers e with
        | Some h => h env db'
        | None => (Raise e, db')
        end
    end.

(** [uuid.uuid4()] and [datetime.datetime.now()].  The identifier is
    drawn at random: nothing ties it to the content of the table. *)
Definition uuid4 : M uuid := λ env db, (Return (drawn_uuid env), db).
Definition datetime_now : M datetime := λ env db, (Return (clock env), db).

Definition send (st : Stmt) : M unit :=
  λ _ db, (Return (), mkDb (table db) (log db ++ [st])).

Definition get_table : M (gmap uuid ProductRow.t) := λ _ db, (Return (table db), db).

Definition put_table (t : gmap uuid ProductRow.t) : M unit :=
  λ _ db, (Return (), mkDb t (log db)).

(** ** The SQLAlchemy session over the table "products" *)

(** A row read back as an ORM instance. *)
Definition load (key : uuid) (r : ProductRow.t) : Product.t :=
  Product.mk key (Some (ProductRow.name r)) (Some (ProductRow.price r))
             (ProductRow.created_at r) (ProductRow.updated_at r).

(** [db.query(Product).filter(Product.id == uuid_obj).first()]. *)
Definition query_first (uuid_obj : uuid) : M (option Product.t) :=
  send (SELECT uuid_obj);;
  t ← get_table;
  mret (load uuid_obj <$> t !! uuid_obj).

(** Ascending order on a nullable column, NULLs last. *)
Definition nulls_last_leb (x y : option datetime) : bool :=
  match x, y with
  | Some a, Some b => Z.leb a b
  | Some _, None => true
  | None, Some _ => false
  | None, None => true
  end.

(** The column of "products" that a textual ORDER BY names, as the
    comparison it sorts with; [None] when there is no such column.  A
    column is named by its own name or by the label the query gives it,
    the table name, an underscore and the column name. *)
Definition column_leb (order_by : string)
  : option (uuid * ProductRow.t → uuid * ProductRow.t → bool) :=
  if bool_decide (order_by = "id")
     || bool_decide (order_by = "products_id") then
    Some (λ x y, N.leb (uuid_int x.1) (uuid_int y.1))
  else if bool_decide (order_by = "name")
          || bool_decide (order_by = "products_name") then
    Some (λ x y, String.leb (ProductRow.name x.2) (ProductRow.name y.2))
  else if bool_decide (order_by = "price")
          || bool_decide (order_by = "products_price") then
    Some (λ x y, Z.leb (ProductRow.price x.2) (ProductRow.price y.2))
  else if bool_decide (order_by = "created_at")
          || bool_decide (order_by = "products_created_at") then
    Some (λ x y, nulls_last_leb (ProductRow.created_at x.2) (ProductRow.created_at y.2))
  else if bool_decide (order_by = "updated_at")
          || bool_decide (order_by = "products_updated_at") then
    Some (λ x y, nulls_last_leb (ProductRow.updated_at x.2) (ProductRow.updated_at y.2))
  else None.

(** The rows that SELECT ... ORDER BY ... LIMIT ... OFFSET ... returns
    from table [t], sorted with [leb]. *)
Definition select_rows (leb : uuid * ProductRow.t → uuid * ProductRow.t → bool)
    (limit offset : Z) (t : gmap uuid ProductRow.t) : list Product.t :=
  take (Z.to_nat limit)
    (drop (Z.to_nat offset)
       (uncurry load <$> merge_sort (λ x y, leb x y) (map_to_list t))).

(** [db.query(Product).order_by(order_by).limit(limit).offset(offset).all()].
    A string that names no column is refused when the statement is
    compiled; a LIMIT or OFFSET that is negative or does not fit 63
    bits is refused by the database. *)
Definition query_all (order_by : string) (limit offset : Z) : M (list Product.t) :=
  match column_leb order_by with
  | None => raise CompileError
  | Some leb =>
      send (SELECT_ALL order_by limit offset);;
      if bigint_ok limit && bigint_ok offset
      then t ← get_table; mret (select_rows leb limit offset t)
      else raise DataError
  end.

(** A value that the database driver refuses to send: a text that
    holds NUL. *)
Definition unsendable (kv : item) : bool :=
  match kv with
  | name_item (Some n) => has_NUL n
  | _ => false
  end.

(** A value that the database refuses for its column type: a price
    outside the range of [Integer]. *)
Definition out_of_range (kv : item) : bool :=
  match kv with
  | price_item (Some p) => negb (Integer_ok p)
  | _ => false
  end.

(** The values that an INSERT or UPDATE carries are checked before any
    row is touched: the driver raises [ValueError] for a value it
    cannot send, and the statement is not sent; the database raises
    [DataError] for a value outside the range of its column. *)
Definition send_write (st : Stmt) (values : list item) : M unit :=
  if existsb unsendable values then raise ValueError
  else
    send st;;
    if existsb out_of_range values then raise DataError else mret ().

(** [db.add(new_product); db.commit()]: the INSERT.  A column whose
    attribute was never set takes its server default. *)
Definition add_commit (new_product : Product.t) : M unit :=
  send_write (INSERT (Product.id new_product))
    [name_item (Product.name new_product);
     price_item (Product.price new_product)];;
  t ← get_table;
  now ← datetime_now;
  match t !! Product.id new_product,
        Product.name new_product, Product.price new_product with
  | None, Some n, Some p =>
      put_table (<[Product.id new_product :=
                   ProductRow.mk n p
                     (Some (default now (Product.created_at new_product)))
                     (Some (default now (Product.updated_at new_product)))]> t)
  | _, _, _ => raise IntegrityError
  end.

(** [db.commit()] with a modified instance in the session: the UPDATE,
    which carries the attributes that were set, [changes]. *)
Definition commit (dirty : Product.t) (changes : list item) : M unit :=
  send_write (UPDATE (Product.id dirty)) changes;;
  t ← get_table;
  match Product.name dirty, Product.price dirty with
  | Some n, Some p =>
      put_table (<[Product.id dirty :=
                   ProductRow.mk n p (Product.created_at dirty)
                              (Product.updated_at dirty)]> t)
  | _, _ => raise IntegrityError
  end.

(** [db.delete(product_to_delete); db.commit()]: the DELETE. *)
Definition delete_commit (product_to_delete : Product.t) : M unit :=
  send (DELETE (Product.id product_to_delete));;
  t ← get_table;
  put_table (delete (Product.id product_to_delete) t).

(** [db.refresh(instance)]: the instance is read again by its key. *)
Definition refresh (instance : Product.t) : M Product.t :=
  r ← query_first (Product.id instance);
  match r with
  | Some p => mret p
  | None => raise InvalidRequestError
  end.

(** [db.rollback()]: a statement that failed has written nothing. *)
Definition rollback : M unit := send ROLLBACK.

(** ** The handlers of routes/products.py *)

Definition except_SQLAlchemyError {A} (h : M A) (e : Exn) : option (M A) :=
  if is_SQLAlchemyError e then Some h else None.

Definition except_IntegrityError_SQLAlchemyError {A} (h1 h2 : M A) (e : Exn)
  : option (M A) :=
  if is_IntegrityError e then Some h1
  else if is_SQLAlchemyError e then Some h2
  else None.

(** The inner [try: uuid.UUID(product_id) except ValueError: raise 400]. *)
Definition validate_uuid `{UuidLib} (product_id : string) : M uuid :=
  match UUID product_id with
  | Some uuid_obj => mret uuid_obj
  | None => raise (HTTPException 400 "Invalid product ID format")
  end.

Definition get_products (page limit offset : Z) (order_by : string)
  : M (list Product.t) :=
  try_except
    (products ← query_all order_by limit offset;
     match products with
     | [] => raise (HTTPException 200 "No products found")
     | _ :: _ => mret products
     end)
    (except_SQLAlchemyError
       (raise (HTTPException 500 "Internal server error while retrieving products"))).

Definition get_product `{UuidLib} (product_id : string) : M Product.t :=
  try_except
    (uuid_obj ← validate_uuid product_id;
     product ← query_first uuid_obj;
     match product with
     | None => raise (HTTPException 404 "Product not found")
     | Some product => mret product
     end)
    (except_SQLAlchemyError
       (raise (HTTPException 500 "Internal server error while retrieving product"))).

Definition create_product (product : ProductCreate.t) : M Product.t :=
  try_except
    (new_id ← uuid4;
     let new_product :=
       Product.mk new_id (Some (ProductCreate.name product))
                  (Some (ProductCreate.price product)) None None in
     add_commit new_product;;
     refresh new_product)
    (except_IntegrityError_SQLAlchemyError
       (rollback;;
        raise (HTTPException 409 "Product creation failed due to constraint violation"))
       (rollback;;
        raise (HTTPException 500 "Internal server error while creating product"))).

Definition update_product `{UuidLib} (product_id : string)
    (product : ProductUpdate.t) : M Product.t :=
  try_except
    (uuid_obj ← validate_uuid product_id;
     product_to_update ← query_first uuid_obj;
     match product_to_update with
     | None => raise (HTTPException 404 "Product not found")
     | Some product_to_update =>
         let update_data := ProductUpdate.dict_exclude_unset product in
         match update_data with
         | [] => raise (HTTPException 400 "No valid fields provided for update")
         | _ :: _ =>
             let product_to_update := foldl setattr product_to_update update_data in
             now ← datetime_now;
             let product_to_update := set_updated_at product_to_update now in
             commit product_to_update update_data;;
             refresh product_to_update
         end
     end)
    (except_IntegrityError_SQLAlchemyError
       (rollback;;
        raise (HTTPException 409 "Product update failed due to constraint violation"))
       (rollback;;
        raise (HTTPException 500 "Internal server error while updating product"))).

Definition delete_product `{UuidLib} (product_id : string) : M string :=
  try_except
    (uuid_obj ← validate_uuid product_id;
     product_to_delete ← query_first uuid_obj;
     match product_to_delete with
     | None => raise (HTTPException 404 "Product not found")
     | Some product_to_delete =>
         delete_commit product_to_delete;;
         mret "Product deleted successfully"
     end)
    (except_SQLAlchemyError
       (rollback;;
        raise (HTTPException 500 "Internal server error while deleting product"))).

(** ** The application: routes, validation of bodies, responses *)

Inductive Body : Type :=
  | product_body (p : ProductBase.t)
  | products_body (l : list ProductBase.t)
  | message_body (message : string)
  | detail_body (detail : string)
  | validation_errors
  | text_body (content : string).

Record Response := mkResponse {
  status : Z;
  body : Body
}.

(** [response_model=ProductBase] and [response_model=list[ProductBase]]. *)
Definition serialize_product (p : Product.t) : option Body :=
  product_body <$> ProductBase.from_orm p.

Definition serialize_products (l : list Product.t) : option Body :=
  products_body <$> mapM ProductBase.from_orm l.

(** [{"message": ...}], a route without response model. *)
Definition serialize_message (m : string) : option Body :=
  Some (message_body m).

(** What the framework answers for the outcome of a handler decorated
    with [status_code=success]: the serialized return value; the status
    and detail of an [HTTPException]; 500 when the return value does not
    validate against the response model or another exception escapes. *)
Definition respond {A} (success : Z) (serialize : A → option Body)
    (r : outcome A) : Response :=
  match r with
  | Return a =>
      match serialize a with
      | Some b => mkResponse success b
      | None => mkResponse 500 (text_body "Internal Server Error")
      end
  | Raise (HTTPException st d) => mkResponse st (detail_body d)
  | Raise _ => mkResponse 500 (text_body "Internal Server Error")
  end.

Definition route {A} (success : Z) (serialize : A → option Body)
    (handler : M A) (env : Env) (db : Db) : Response * Db :=
  let '(r, db') := handler env db in (respond success serialize r, db').

(** routes/default.py. *)
Definition home : Response := mkResponse 200 (text_body "It's aliveee").

Inductive Request : Type :=
  | GET_root
  | GET_products (page limit offset : Z) (order_by : string)
  | GET_product (product_id : string)
  | POST_products (product : ProductCreate.t)
  | PATCH_product (product_id : string) (product : ProductUpdate.t)
  | DELETE_product (product_id : string).

(** A body that fails the validation of its model is answered 422
    before the handler is called. *)
Definition unprocessable (env : Env) (db : Db) : Response * Db :=
  (mkResponse 422 validation_errors, db).

(** main.py: the application with both routers included. *)
Definition app `{UuidLib} (req : Request) : Env → Db → Response * Db :=
  match req with
  | GET_root => λ _ db, (home, db)
  | GET_products page limit offset order_by =>
      route 200 serialize_products (get_products page limit offset order_by)
  | GET_product product_id =>
      route 200 serialize_product (get_product product_id)
  | POST_products product =>
      if ProductCreate.valid product
      then route 201 serialize_product (create_product product)
      else unprocessable
  | PATCH_product product_id product =>
      if ProductUpdate.valid product
      then route 200 serialize_product (update_product product_id product)
      else unprocessable
  | DELETE_product product_id =>
      route 200 serialize_message (delete_product product_id)
  end.

(** The database after a sequence of requests, each with the clock and
    the UUID drawn while it is served. *)
Fixpoint run `{UuidLib} (reqs : list (Request * Env)) (db : Db) : Db :=
  match reqs with
  | [] => db
  | (req, env) :: reqs => run reqs (app req env db).2
  end.

Definition empty_db : Db := mkDb ∅ [].

(** The responses to a sequence of requests served one after the other. *)
Fixpoint serve `{UuidLib} (reqs : list (Request * Env)) (db : Db)
  : list Response :=
  match reqs with
  | [] => []
  | (req, env) :: reqs =>
      (app req env db).1 :: serve reqs (app req env db).2
  end.

(** ** Predicates on storage and responses *)

(** The data-model invariant on one row and on the table. *)
Definition row_ok (r : ProductRow.t) : Prop :=
  0 < ProductRow.price r ∧ ProductRow.name r ≠ "".

Definition storage_ok (db : Db) : Prop :=
  map_Forall (λ _ r, row_ok r) (table db).

#[global] Instance row_ok_dec r : Decision (row_ok r).
Proof. unfold row_ok. apply _. Defined.

#[global] Instance storage_ok_dec db : Decision (storage_ok db).
Proof. unfold storage_ok. apply _. Defined.

Definition is_list_body (b : Body) : bool :=
  match b with products_body _ => true | _ => false end.

(** The database after the statements [sts] were sent and changed nothing. *)
Definition logged (db : Db) (sts : list Stmt) : Db :=
  mkDb (table db) (log db ++ sts).

(** The instance that [update_product] commits: the loaded row with the
    supplied fields set and [updated_at] refreshed. *)
Definition merged (u : uuid) (r : ProductRow.t) (product : ProductUpdate.t)
    (now : datetime) : Product.t :=
  set_updated_at
    (foldl setattr (load u r) (ProductUpdate.dict_exclude_unset product)) now.

(** ** Rows that the response schema accepts *)

(** A stored row that validates against [ProductBase] when it is read
    back: a price > 0 and both timestamps set. *)
Definition row_presentable (u : uuid) (r : ProductRow.t) : Prop :=
  is_Some (ProductBase.from_orm (load u r)).

Definition storage_presentable (db : Db) : Prop :=
  map_Forall row_presentable (table db).

(** The rows of table [t] in the order of [leb], cut to the window of
    [limit] rows after [offset]: [select_rows] before the rows are
    loaded as ORM instances. *)
Definition window (leb : uuid * ProductRow.t → uuid * ProductRow.t → bool)
    (limit offset : Z) (t : gmap uuid ProductRow.t)
  : list (uuid * ProductRow.t) :=
  take (Z.to_nat limit)
    (drop (Z.to_nat offset) (merge_sort (λ x y, leb x y) (map_to_list t))).

(** The order of two ORM instances by price. *)
Definition price_le (p q : Product.t) : Prop :=
  match Product.price p, Product.price q with
  | Some a, Some b => (a ≤ b)%Z
  | _, _ => False
  end.

(** ** A concrete [uuid] library: the canonical 8-4-4-4-12 form *)

Definition hex_digit (d : N) : ascii :=
  if (d <? 10)%N then ascii_of_N (48 + d) else ascii_of_N (87 + d).

Definition hex_value (c : ascii) : option N :=
  let n := N_of_ascii c in
  if (48 <=? n)%N && (n <=? 57)%N then Some (n - 48)%N
  else if (97 <=? n)%N && (n <=? 102)%N then Some (n - 87)%N
  else if (65 <=? n)%N && (n <=? 70)%N then Some (n - 55)%N
  else None.

(** [k] hexadecimal digits of [n], most significant first. *)
Fixpoint hex_encode (k : nat) (n : N) : list ascii :=
  match k with
  | O => []
  | S k => hex_encode k (n / 16) ++ [hex_digit (n mod 16)]
  end.

Fixpoint hex_decode (acc : N) (l : list ascii) : option N :=
  match l with
  | [] => Some acc
  | c :: l => d ← hex_value c; hex_decode (16 * acc + d) l
  end.

Definition uuid_of_N (n : N) : option uuid :=
  match decide (n < 2 ^ 128)%N with
  | left H => Some (dexist n H)
  | right _ => None
  end.

Definition is_dash (c : ascii) : Prop := c = "-"%char.

#[global] Instance is_dash_dec c : Decision (is_dash c).
Proof. unfold is_dash. apply _. Defined.

(** [str(u)]: 32 lowercase digits in groups of 8, 4, 4, 4 and 12. *)
Definition canonical_str (u : uuid) : string :=
  let d := hex_encode 32 (uuid_int u) in
  string_of_list_ascii
    (take 8 d ++ "-"%char :: take 4 (drop 8 d) ++ "-"%char ::
     take 4 (drop 12 d) ++ "-"%char :: take 4 (drop 16 d) ++ "-"%char ::
     drop 20 d).

(** A constructor that reads hyphenated hexadecimal: the hyphens are
    dropped and 32 hexadecimal digits must remain. *)
Definition canonical_UUID (s : string) : option uuid :=
  let h := filter (λ c, ¬ is_dash c) (list_ascii_of_string s) in
  if decide (length h = 32%nat) then hex_decode 0 h ≫= uuid_of_N else None.

(** ** The logging formatter of routes/products.py *)

Module ColoredFormatter.

(** colorama's ANSI sequences: [Fore.X] and [Style.X] are ESC "[" code "m". *)
Definition CSI : string := String (ascii_of_nat 27) "[".
Definition Fore_RED : string := CSI +:+ "31m".
Definition Fore_GREEN : string := CSI +:+ "32m".
Definition Fore_YELLOW : string := CSI +:+ "33m".
Definition Fore_BLUE : string := CSI +:+ "34m".
Definition Style_BRIGHT : string := CSI +:+ "1m".
Definition Style_RESET_ALL : string := CSI +:+ "0m".

Definition COLORS : gmap string string :=
  list_to_map
    [ ("INFO", Fore_GREEN);
      ("WARNING", Fore_YELLOW);
      ("ERROR", Fore_RED);
      ("CRITICAL", Fore_RED +:+ Style_BRIGHT);
      ("DEBUG", Fore_BLUE) ].

(** The attributes of a [logging.LogRecord] that the formatter reads and
    writes.  The record carries no arguments, exception or stack
    information, as the records of this module's [logger] calls. *)
Record LogRecord := mkLogRecord {
  levelname : string;
  name : string;
  msg : string
}.

(** [s.split(sep)] for a one-character separator: the pieces between the
    occurrences of [sep], empty pieces included; never the empty list. *)
Fixpoint split (sep : ascii) (s : string) : list string :=
  match s with
  | EmptyString => [""]
  | String c s =>
      if decide (c = sep) then "" :: split sep s
      else match split sep s with
           | piece :: pieces => String c piece :: pieces
           | [] => [String c ""]
           end
  end.

(** [sep.join(pieces)]. *)
Fixpoint join (sep : string) (pieces : list string) : string :=
  match pieces with
  | [] => ""
  | [piece] => piece
  | piece :: pieces => piece +:+ sep +:+ join sep pieces
  end.

(** The slice [l[-2:]]. *)
Definition last_two {A} (l : list A) : list A := drop (length l - 2) l.

(** [route_info = record.name.split('.')[-2:]; route = '.'.join(route_info)]. *)
Definition route_of (logger_name : string) : string :=
  join "." (last_two (split "." logger_name)).

(** [logging.Formatter.format] with [fmt='%(levelname)s:  %(message)s']. *)
Definition Formatter_format (record : LogRecord) : string :=
  levelname record +:+ ":  " +:+ msg record.

(** [ColoredFormatter.format]: the formatted line, and the record as the
    method leaves it (it assigns [record.levelname] and [record.msg]). *)
Definition format (record : LogRecord) : string * LogRecord :=
  let levelname' :=
    match COLORS !! levelname record with
    | Some color => color +:+ levelname record +:+ Style_RESET_ALL
    | None => levelname record
    end in
  let route := route_of (name record) in
  let record' :=
    mkLogRecord levelname' (name record) (route +:+ " - " +:+ msg record) in
  (Formatter_format record', record').

(** A piece without the separator. *)
Fixpoint dot_free (s : string) : bool :=
  match s with
  | EmptyString => true
  | String c s => if decide (c = "."%char) then false else dot_free s
  end.

End ColoredFormatter.

(** ** The load script scripts/create_test_products.py *)

Module Script.

(** What one call of [generate_product_data] draws: the indices picked
    by the two [random.choice], the value of [fake.word().title()] and
    the value of [random.randint(999, 99999)]. *)
Record Draw := mkDraw {
  type_index : fin 5;
  adjective_index : fin 5;
  titled_word : string;
  cents : Z
}.

Definition product_types : vec string 5 :=
  [# "Electronics"; "Clothing"; "Books"; "Home"; "Sports"].

Definition adjectives : vec string 5 :=
  [# "Premium"; "Deluxe"; "Basic"; "Pro"; "Ultra"].

(** [random.choice(seq)], for the index drawn. *)
Definition random_choice {n} (seq : vec string n) (i : fin n) : string :=
  seq !!! i.


Definition generate_product_data (d : Draw) : ProductCreate.t :=
  let product_type := random_choice product_types (type_index d) in
  let adjective := random_choice adjectives (adjective_index d) in
  ProductCreate.mk
    (adjective +:+ " " +:+ titled_word d +:+ " " +:+ product_type)
    (cents d).

(** [create_product(session, product_data)]: the POST to the service on
    localhost:8000 and whether it was answered 201. *)
Definition create_product `{UuidLib} (product_data : ProductCreate.t)
    (env : Env) (db : Db) : bool * Db :=
  let '(response, db') := app (POST_products product_data) env db in
  (bool_decide (status response = 201), db').

(** [asyncio.gather] over the tasks: the results of the posts.  The handlers
    are coroutines without a suspension point, so the service takes the
    requests one at a time; the list is in the order it takes them. *)
Fixpoint gather `{UuidLib} (tasks : list (ProductCreate.t * Env)) (db : Db)
  : list bool * Db :=
  match tasks with
  | [] => ([], db)
  | (product_data, env) :: tasks =>
      let '(result, db') := create_product product_data env db in
      let '(results, db'') := gather tasks db' in
      (result :: results, db'')
  end.

(** [batch_create_products(num_products)], with one draw and one
    service environment per product: the number [successful] that it
    logs, and the database it leaves. *)
Definition batch_create_products `{UuidLib} (draws : list (Draw * Env))
    (db : Db) : nat * Db :=
  let tasks := (λ de : Draw * Env, (generate_product_data de.1, de.2)) <$> draws in
  let '(results, db') := gather tasks db in
  (length (filter (λ result, result = true) results), db').

End Script.

(** ** Sample data *)

Module Sample.

Definition u1 : uuid := dexist 1%N eq_refl.
Definition u2 : uuid := dexist 2%N eq_refl.

Definition widget : ProductRow.t := ProductRow.mk "Widget" 500 (Some 1000) (Some 1000).

(** A table holding the one product [u1]. *)
Definition db1 : Db := mkDb {[u1 := widget]} [].

Definition env1 : Env := mkEnv 1000 u1.
Definition env2 : Env := mkEnv 2000 u2.

Definition only_price (v : Z) : ProductUpdate.t :=
  ProductUpdate.mk Unset (Given (Some v)).

Definition no_field : ProductUpdate.t := ProductUpdate.mk Unset Unset.

(** A session that creates, renames, tries to erase a price, lists and
    deletes. *)
Definition session : list (Request * Env) :=
  [ (POST_products (ProductCreate.mk "Gadget" 1250), env2);
    (PATCH_product (canonical_str u1)
       (ProductUpdate.mk (Given (Some "Widget II")) Unset), env2);
    (PATCH_product (canonical_str u2) (ProductUpdate.mk Unset (Given None)), env2);
    (GET_products 1 10 0 "price", env2);
    (DELETE_product (canonical_str u1), env2) ].

(** The scenario of the spec: create "Widget", read it, raise its price,
    delete it, read it again; then two bodies that fail validation. *)
Definition scenario : list (Request * Env) :=
  [ (POST_products (ProductCreate.mk "Widget" 500), env1);
    (GET_product (canonical_str u1), env2);
    (PATCH_product (canonical_str u1) (only_price 600), env2);
    (DELETE_product (canonical_str u1), env2);
    (GET_product (canonical_str u1), env2);
    (POST_products (ProductCreate.mk "" 500), env2);
    (POST_products (ProductCreate.mk "X" 0), env2) ].

End Sample.

(** More sample data: a PATCH body that sets the price to [null], and
    two draws of the load script. *)
Definition null_price : ProductUpdate.t := ProductUpdate.mk Unset (Given None).

(** A name of three characters, the second of which is NUL. *)
Definition nul_name : string := String "A" (String "000" (String "B" "")).

(** A PATCH body that renames the product and sets the price to [null]. *)
Definition lamp_null_price : ProductUpdate.t :=
  ProductUpdate.mk (Given (Some "Lamp")) (Given None).

(** A table of two products in which the order of the keys is not the
    order of the prices: [u1] before [u2], 500 after 300. *)
Definition gizmo : ProductRow.t :=
  ProductRow.mk "Gizmo" 300 (Some 1500) (Some 1500).

Definition db2 : Db :=
  mkDb (<[Sample.u2 := gizmo]> {[Sample.u1 := Sample.widget]}) [].

Definition gadget_draw : Script.Draw := Script.mkDraw 0%fin 0%fin "Gadget" 1999.


(** * Properties *)

(** ** The canonical form reads back *)

Lemma hex_digit_cases (d : N) :
  (d < 16)%N →
  hex_value (hex_digit d) = Some d ∧ ¬ is_dash (hex_digit d).
Proof.
  intros Hd.
  assert (Hcases : d ∈ (N.of_nat <$> seq 0 16)).
  { apply list_elem_of_fmap. exists (N.to_nat d). split; [lia|].
    apply elem_of_seq. lia. }
  simpl in Hcases.
  repeat (apply elem_of_cons in Hcases as [-> | Hcases];
          [split; [reflexivity | discriminate] |]).
  by apply elem_of_nil in Hcases.
Qed.

Lemma hex_encode_length k n : length (hex_encode k n) = k.
Proof.
  revert n. induction k as [|k IH]; intros n; simpl; [done|].
  rewrite length_app, IH. simpl. lia.
Qed.

Lemma hex_encode_no_dash k n : Forall (λ c, ¬ is_dash c) (hex_encode k n).
Proof.
  revert n. induction k as [|k IH]; intros n; simpl; [constructor|].
  apply Forall_app. split; [apply IH|].
  constructor; [|constructor].
  apply hex_digit_cases. apply N.mod_upper_bound. lia.
Qed.

Lemma hex_decode_app acc l1 l2 :
  hex_decode acc (l1 ++ l2) = hex_decode acc l1 ≫= λ a, hex_decode a l2.
Proof.
  revert acc. induction l1 as [|c l1 IH]; intros acc; simpl; [done|].
  destruct (hex_value c) as [d|]; simpl; [apply IH | done].
Qed.

Lemma hex_decode_encode k n acc :
  hex_decode acc (hex_encode k n)
  = Some (acc * 16 ^ N.of_nat k + n mod 16 ^ N.of_nat k)%N.
Proof.
  revert n acc. induction k as [|k IH]; intros n acc.
  - simpl. f_equal. rewrite N.mod_1_r. lia.
  - cbn [hex_encode]. rewrite hex_decode_app, IH. cbn [mbind option_bind hex_decode].
    destruct (hex_digit_cases (n mod 16)) as [-> _].
    { apply N.mod_upper_bound. lia. }
    cbn [mbind option_bind]. f_equal.
    rewrite Nat2N.inj_succ, N.pow_succ_r'.
    rewrite (N.Div0.mod_mul_r n 16 (16 ^ N.of_nat k)). lia.
Qed.

Lemma filter_all {A} (P : A → Prop) `{∀ x, Decision (P x)} (l : list A) :
  Forall P l → filter P l = l.
Proof.
  induction 1 as [|x l Hx _ IH]; [done|].
  rewrite filter_cons_True by done. by rewrite IH.
Qed.

Lemma regroup {A} (l : list A) :
  take 8 l ++ take 4 (drop 8 l) ++ take 4 (drop 12 l) ++
  take 4 (drop 16 l) ++ drop 20 l = l.
Proof.
  change (drop 20 l) with (drop (16 + 4) l).
  rewrite <- (drop_drop l 4 16), (take_drop 4 (drop 16 l)).
  change (drop 16 l) with (drop (12 + 4) l).
  rewrite <- (drop_drop l 4 12), (take_drop 4 (drop 12 l)).
  change (drop 12 l) with (drop (8 + 4) l).
  rewrite <- (drop_drop l 4 8), (take_drop 4 (drop 8 l)).
  apply take_drop.
Qed.

Lemma canonical_UUID_str u : canonical_UUID (canonical_str u) = Some u.
Proof.
  unfold canonical_UUID, canonical_str.
  rewrite list_ascii_of_string_of_list_ascii.
  set (d := hex_encode 32 (uuid_int u)).
  assert (Hd : Forall (λ c, ¬ is_dash c) d) by apply hex_encode_no_dash.
  assert (Hdash : ∀ l, filter (λ c, ¬ is_dash c) ("-"%char :: l)
                       = filter (λ c, ¬ is_dash c) l).
  { intros l. apply filter_cons_False. intros Hn. by apply Hn. }
  rewrite !filter_app, !Hdash, !filter_app, !Hdash, !filter_app, !Hdash,
    !filter_app, !Hdash.
  rewrite !filter_all by (repeat first [apply Forall_take | apply Forall_drop]; done).
  rewrite (regroup d).
  subst d. rewrite hex_encode_length.
  rewrite decide_True by done.
  rewrite hex_decode_encode. cbn [mbind option_bind].
  unfold uuid_of_N.
  pose proof (proj2_dsig u) as Hu. unfold uuid_int.
  rewrite N.mul_0_l, N.add_0_l.
  assert (Hp : (16 ^ N.of_nat 32 = 2 ^ 128)%N) by reflexivity.
  rewrite Hp, N.mod_small by done.
  destruct (decide (`u < 2 ^ 128)%N) as [H|H]; [|done].
  f_equal. by apply dsig_eq.
Qed.

(** The canonical form as an instance of the library interface. *)
#[global] Instance canonical_uuid : UuidLib := {
  UUID := canonical_UUID;
  uuid_str := canonical_str;
  UUID_uuid_str := canonical_UUID_str
}.

(** ** The handlers, outcome by outcome *)

Ltac unfold_M :=
  unfold try_except, except_SQLAlchemyError,
    except_IntegrityError_SQLAlchemyError, validate_uuid, query_first,
    add_commit, commit, send_write, delete_commit, refresh, rollback, uuid4,
    datetime_now, send, get_table, put_table, raise,
    mbind, M_bind, mret, M_ret in *.

Section handlers.
Context `{UuidLib}.

Lemma get_product_eq product_id env db :
  get_product product_id env db =
  match UUID product_id with
  | None => (Raise (HTTPException 400 "Invalid product ID format"), db)
  | Some u =>
      match table db !! u with
      | None => (Raise (HTTPException 404 "Product not found"),
                 logged db [SELECT u])
      | Some r => (Return (load u r), logged db [SELECT u])
      end
  end.
Proof.
  unfold get_product, logged. unfold_M.
  destruct (UUID product_id) as [u|]; simpl; [|done].
  by destruct (table db !! u).
Qed.

Lemma delete_product_eq product_id env db :
  delete_product product_id env db =
  match UUID product_id with
  | None => (Raise (HTTPException 400 "Invalid product ID format"), db)
  | Some u =>
      match table db !! u with
      | None => (Raise (HTTPException 404 "Product not found"),
                 logged db [SELECT u])
      | Some r => (Return "Product deleted successfully",
                   mkDb (delete u (table db)) (log db ++ [SELECT u; DELETE u]))
      end
  end.
Proof.
  unfold delete_product, logged. unfold_M.
  destruct (UUID product_id) as [u|]; simpl; [|done].
  destruct (table db !! u); simpl; [|done].
  by rewrite <- app_assoc.
Qed.

Lemma merged_id u r product now : Product.id (merged u r product now) = u.
Proof. by destruct product as [[|?] [|?]]. Qed.

Lemma update_product_eq product_id product env db :
  update_product product_id product env db =
  match UUID product_id with
  | None => (Raise (HTTPException 400 "Invalid product ID format"), db)
  | Some u =>
      match table db !! u with
      | None => (Raise (HTTPException 404 "Product not found"),
                 logged db [SELECT u])
      | Some r =>
          match ProductUpdate.dict_exclude_unset product with
          | [] => (Raise (HTTPException 400 "No valid fields provided for update"),
                   logged db [SELECT u])
          | _ :: _ =>
              let p := merged u r product (clock env) in
              if existsb unsendable (ProductUpdate.dict_exclude_unset product)
              then (Raise ValueError, logged db [SELECT u])
              else if existsb out_of_range
                        (ProductUpdate.dict_exclude_unset product)
              then
                (Raise (HTTPException 500
                          "Internal server error while updating product"),
                 logged db [SELECT u; UPDATE u; ROLLBACK])
              else
                match Product.name p, Product.price p with
                | Some n, Some pr =>
                    let row := ProductRow.mk n pr (Product.created_at p)
                                           (Product.updated_at p) in
                    (Return (load u row),
                     mkDb (<[u := row]> (table db))
                          (log db ++ [SELECT u; UPDATE u; SELECT u]))
                | _, _ =>
                    (Raise (HTTPException 409
                              "Product update failed due to constraint violation"),
                     logged db [SELECT u; UPDATE u; ROLLBACK])
                end
          end
      end
  end.
Proof.
  unfold update_product, logged. unfold_M.
  destruct (UUID product_id) as [u|]; simpl; [|done].
  destruct (table db !! u) as [r|] eqn:Hr; simpl; [|done].
  destruct product as [[|[n|]] [|[pr|]]]; simpl;
    try destruct (has_NUL n); simpl;
    try destruct (Integer_ok pr); simpl;
    rewrite ?lookup_insert_eq; simpl; by rewrite <- ?app_assoc.
Qed.

Lemma create_product_eq product env db :
  create_product product env db =
  let u := drawn_uuid env in
  if has_NUL (ProductCreate.name product) then (Raise ValueError, db)
  else if Integer_ok (ProductCreate.price product) then
    match table db !! u with
    | None =>
        let row := ProductRow.mk (ProductCreate.name product) (ProductCreate.price product)
                          (Some (clock env)) (Some (clock env)) in
        (Return (load u row),
         mkDb (<[u := row]> (table db)) (log db ++ [INSERT u; SELECT u]))
    | Some _ =>
        (Raise (HTTPException 409
                  "Product creation failed due to constraint violation"),
         logged db [INSERT u; ROLLBACK])
    end
  else
    (Raise (HTTPException 500 "Internal server error while creating product"),
     logged db [INSERT u; ROLLBACK]).
Proof.
  unfold create_product, logged. unfold_M. simpl.
  destruct (has_NUL (ProductCreate.name product)); simpl; [done|].
  destruct (Integer_ok (ProductCreate.price product)); simpl.
  - destruct (table db !! drawn_uuid env); simpl.
    + by rewrite <- !app_assoc.
    + rewrite lookup_insert_eq. simpl. by rewrite <- !app_assoc.
  - by rewrite <- !app_assoc.
Qed.

End handlers.

Lemma get_products_eq page limit offset order_by env db :
  get_products page limit offset order_by env db =
  match column_leb order_by with
  | None =>
      (Raise (HTTPException 500 "Internal server error while retrieving products"),
       db)
  | Some leb =>
      let db' := logged db [SELECT_ALL order_by limit offset] in
      if bigint_ok limit && bigint_ok offset then
        match select_rows leb limit offset (table db) with
        | [] => (Raise (HTTPException 200 "No products found"), db')
        | p :: ps => (Return (p :: ps), db')
        end
      else
        (Raise (HTTPException 500 "Internal server error while retrieving products"),
         db')
  end.
Proof.
  unfold get_products, query_all, logged. unfold_M.
  destruct (column_leb order_by) as [leb|]; simpl; [|done].
  destruct (bigint_ok limit && bigint_ok offset); simpl; [|done].
  by destruct (select_rows leb limit offset (table db)).
Qed.

Lemma query_all_eq order_by limit offset env db :
  query_all order_by limit offset env db =
  match column_leb order_by with
  | None => (Raise CompileError, db)
  | Some leb =>
      let db' := logged db [SELECT_ALL order_by limit offset] in
      if bigint_ok limit && bigint_ok offset then
        (Return (select_rows leb limit offset (table db)), db')
      else (Raise DataError, db')
  end.
Proof.
  unfold query_all, logged. unfold_M.
  destruct (column_leb order_by) as [leb|]; simpl; [|done].
  by destruct (bigint_ok limit && bigint_ok offset).
Qed.

(** The framework answers an [HTTPException] with its own status and
    detail, whatever the route's success status. *)
Lemma respond_HTTPException {A} success (serialize : A → option Body) st d :
  respond success serialize (Raise (HTTPException st d))
  = mkResponse st (detail_body d).
Proof. done. Qed.

(** ** Claims about identifiers *)

Section identifiers.
Context `{UuidLib}.

(** C7: for every string that [uuid.UUID] refuses, Get, Update and
    Delete raise the 400 "Invalid product ID format" and leave the
    database, the record of statements included, as it was: no storage
    query is made. *)
Theorem invalid_id_bad_request product_id product env db :
  UUID product_id = None →
  get_product product_id env db
    = (Raise (HTTPException 400 "Invalid product ID format"), db)
  ∧ update_product product_id product env db
    = (Raise (HTTPException 400 "Invalid product ID format"), db)
  ∧ delete_product product_id env db
    = (Raise (HTTPException 400 "Invalid product ID format"), db).
Proof.
  intros Hbad.
  rewrite get_product_eq, update_product_eq, delete_product_eq, Hbad.
  done.
Qed.

Lemma update_product_absent product_id u product env db :
  UUID product_id = Some u →
  table db !! u = None →
  update_product product_id product env db
  = (Raise (HTTPException 404 "Product not found"), logged db [SELECT u]).
Proof. intros Hu Hnone. by rewrite update_product_eq, Hu, Hnone. Qed.

(** C6: for every identifier that [uuid.UUID] accepts and that is not a
    key of the table, Get, Update and Delete raise the 404 "Product not
    found" (not a 500), after the one lookup by key. *)
Theorem absent_id_not_found product_id u product env db :
  UUID product_id = Some u →
  table db !! u = None →
  get_product product_id env db
    = (Raise (HTTPException 404 "Product not found"), logged db [SELECT u])
  ∧ update_product product_id product env db
    = (Raise (HTTPException 404 "Product not found"), logged db [SELECT u])
  ∧ delete_product product_id env db
    = (Raise (HTTPException 404 "Product not found"), logged db [SELECT u]).
Proof.
  intros Hu Hnone. split_and!.
  - by rewrite get_product_eq, Hu, Hnone.
  - by apply update_product_absent.
  - by rewrite delete_product_eq, Hu, Hnone.
Qed.

(** C10: for an identifier that [uuid.UUID] accepts and that is not a
    key of the table, an Update whose body sets no field raises the 404
    "Product not found", not the 400 of the empty payload: the lookup by
    key is the only statement sent, and it decides the outcome. *)
Theorem empty_update_absent_id_not_found product_id u product env db :
  UUID product_id = Some u →
  table db !! u = None →
  ProductUpdate.dict_exclude_unset product = [] →
  update_product product_id product env db
    = (Raise (HTTPException 404 "Product not found"), logged db [SELECT u])
  ∧ (update_product product_id product env db).1
    ≠ Raise (HTTPException 400 "No valid fields provided for update").
Proof.
  intros Hu Hnone _.
  rewrite (update_product_absent _ u) by done. by split.
Qed.

(** C8: when a Delete has returned its confirmation, a second Delete of
    the same identifier raises the 404 "Product not found". *)
Theorem delete_twice_not_found product_id env env' db db' message :
  delete_product product_id env db = (Return message, db') →
  (delete_product product_id env' db').1
  = Raise (HTTPException 404 "Product not found").
Proof.
  rewrite !delete_product_eq.
  destruct (UUID product_id) as [u|]; [|done].
  destruct (table db !! u) as [r|]; [|done].
  intros [= _ <-]. simpl. by rewrite lookup_delete_eq.
Qed.

End identifiers.

(** ** Claims about Create, Update and List *)

Section operations.
Context `{UuidLib}.

Lemma from_orm_load u r c m :
  ProductRow.created_at r = Some c → ProductRow.updated_at r = Some m → 0 < ProductRow.price r →
  ProductBase.from_orm (load u r)
  = Some (ProductBase.mk u (ProductRow.name r) (ProductRow.price r) c m).
Proof.
  intros Hc Hm Hp. unfold ProductBase.from_orm, load. simpl.
  rewrite Hc, Hm. by rewrite bool_decide_eq_true_2.
Qed.

Lemma valid_create_price product :
  ProductCreate.valid product = true → 0 < ProductCreate.price product.
Proof.
  unfold ProductCreate.valid. rewrite !andb_true_iff, !bool_decide_eq_true.
  tauto.
Qed.

Lemma valid_create_name product :
  ProductCreate.valid product = true → ProductCreate.name product ≠ "".
Proof.
  unfold ProductCreate.valid. rewrite !andb_true_iff, !bool_decide_eq_true.
  intros [[Hlen _] _] Heq. rewrite Heq in Hlen. simpl in Hlen. lia.
Qed.

Lemma valid_create_Integer_ok product :
  ProductCreate.valid product = true →
  (ProductCreate.price product ≤ 2147483647)%Z →
  Integer_ok (ProductCreate.price product) = true.
Proof.
  intros Hvalid%valid_create_price Hmax. unfold Integer_ok.
  rewrite andb_true_iff, !bool_decide_eq_true. lia.
Qed.

Lemma Integer_ok_max z : Integer_ok z = true → (z ≤ 2147483647)%Z.
Proof.
  unfold Integer_ok. rewrite andb_true_iff, !bool_decide_eq_true. tauto.
Qed.

(** X6: the other outcome of Create: for a body that passes validation
    and carries values the database takes (a name without NUL, a price
    within the column [Integer]), a drawn identifier that is already a
    key violates the primary key, and the [except IntegrityError] clause
    answers 409 after a rollback; nothing is written. *)
Lemma create_product_conflict product env db r :
  ProductCreate.valid product = true →
  has_NUL (ProductCreate.name product) = false →
  (ProductCreate.price product ≤ 2147483647)%Z →
  table db !! drawn_uuid env = Some r →
  app (POST_products product) env db
  = (mkResponse 409
       (detail_body "Product creation failed due to constraint violation"),
     logged db [INSERT (drawn_uuid env); ROLLBACK]).
Proof.
  intros Hvalid Hnul Hmax Hused. unfold app, route.
  rewrite Hvalid, create_product_eq. cbv zeta.
  by rewrite Hnul, valid_create_Integer_ok, Hused.
Qed.

(** X7: a PATCH that sets a field to [null] passes validation, is refused by
    the NOT NULL column and is answered 409; nothing is written.  The
    other field, when the body sets it, is a value the database takes:
    a name without NUL, a price within the column [Integer]. *)
Lemma update_null_conflict product_id u old product env db :
  UUID product_id = Some u →
  table db !! u = Some old →
  ProductUpdate.name product = Given None
  ∨ ProductUpdate.price product = Given None →
  (∀ n, ProductUpdate.name product = Given (Some n) → has_NUL n = false) →
  (∀ v, ProductUpdate.price product = Given (Some v) → Integer_ok v = true) →
  update_product product_id product env db
  = (Raise (HTTPException 409
              "Product update failed due to constraint violation"),
     logged db [SELECT u; UPDATE u; ROLLBACK]).
Proof.
  intros Hu Hold Hnull Hname Hprice. rewrite update_product_eq, Hu, Hold.
  destruct product as [[|[n|]] [|[pr|]]]; simpl in *;
    destruct Hnull as [?|?]; try done;
    rewrite ?(Hname n eq_refl), ?(Hprice pr eq_refl); done.
Qed.

(** An Update with only a price, one that the column [Integer] holds,
    returns on every stored product. *)
Lemma update_only_price_returns product_id u old v env db :
  UUID product_id = Some u →
  table db !! u = Some old →
  Integer_ok v = true →
  let new := ProductRow.mk (ProductRow.name old) v (ProductRow.created_at old) (Some (clock env)) in
  update_product product_id (ProductUpdate.mk Unset (Given (Some v))) env db
  = (Return (load u new),
     mkDb (<[u := new]> (table db)) (log db ++ [SELECT u; UPDATE u; SELECT u])).
Proof.
  intros Hu Hold Hv. rewrite update_product_eq, Hu, Hold. simpl. by rewrite Hv.
Qed.

(** C1, as the code has it: for every body that passes the validation
    of [ProductCreate] (name of 1 to 100 characters, price > 0) and
    carries values the database takes (a name without NUL, a price of
    at most 2147483647, the largest value of the column [Integer]),
    when the identifier drawn by [uuid.uuid4()] is not yet a key of the
    table, POST /products answers 201 with a record carrying the name
    and the price of the body (a price > 0), and a later
    GET /products/{id} with the printed identifier of that record
    answers 200 with the same record. *)
Theorem create_then_get product env env' db :
  ProductCreate.valid product = true →
  has_NUL (ProductCreate.name product) = false →
  (ProductCreate.price product ≤ 2147483647)%Z →
  table db !! drawn_uuid env = None →
  ∃ record db' db'',
    app (POST_products product) env db
      = (mkResponse 201 (product_body record), db')
    ∧ ProductBase.name record = ProductCreate.name product
    ∧ ProductBase.price record = ProductCreate.price product
    ∧ 0 < ProductBase.price record
    ∧ app (GET_product (uuid_str (ProductBase.id record))) env' db'
      = (mkResponse 200 (product_body record), db'').
Proof.
  intros Hvalid Hnul Hmax Hfresh.
  pose proof (valid_create_price _ Hvalid) as Hprice.
  set (u := drawn_uuid env).
  set (row := ProductRow.mk (ProductCreate.name product) (ProductCreate.price product)
                     (Some (clock env)) (Some (clock env))).
  exists (ProductBase.mk u (ProductCreate.name product)
            (ProductCreate.price product) (clock env) (clock env)).
  exists (mkDb (<[u := row]> (table db)) (log db ++ [INSERT u; SELECT u])).
  eexists. split_and!; try done.
  - unfold app, route. rewrite Hvalid, create_product_eq.
    cbv zeta. rewrite Hnul, valid_create_Integer_ok, Hfresh by done.
    fold u row. unfold respond, serialize_product.
    by rewrite (from_orm_load u row (clock env) (clock env)).
  - unfold app, route. simpl.
    rewrite get_product_eq, UUID_uuid_str. simpl.
    rewrite lookup_insert_eq. simpl. unfold serialize_product.
    by rewrite (from_orm_load u row (clock env) (clock env)).
Qed.

(** C5: when Update returns, the row of the identified product is
    replaced by one in which every field set in the body has the
    supplied value, every field left out of the body keeps its prior
    value, [created_at] is unchanged and [updated_at] is the current
    time; the key and all other rows are untouched.  In particular a
    body with only a price changes the price and [updated_at] and
    nothing else. *)
Theorem update_merges_supplied_fields product_id product env db p db' :
  update_product product_id product env db = (Return p, db') →
  ∃ u old new,
    UUID product_id = Some u
    ∧ table db !! u = Some old
    ∧ table db' = <[u := new]> (table db)
    ∧ p = load u new
    ∧ ProductRow.created_at new = ProductRow.created_at old
    ∧ ProductRow.updated_at new = Some (clock env)
    ∧ (ProductUpdate.name product = Unset → ProductRow.name new = ProductRow.name old)
    ∧ (ProductUpdate.price product = Unset → ProductRow.price new = ProductRow.price old)
    ∧ (∀ v, ProductUpdate.name product = Given (Some v) → ProductRow.name new = v)
    ∧ (∀ v, ProductUpdate.price product = Given (Some v) → ProductRow.price new = v)
    ∧ (∀ v, product = ProductUpdate.mk Unset (Given (Some v)) →
            new = ProductRow.mk (ProductRow.name old) v (ProductRow.created_at old)
                         (Some (clock env))).
Proof.
  rewrite update_product_eq.
  destruct (UUID product_id) as [u|]; [|done].
  destruct (table db !! u) as [old|] eqn:Hold; [|done].
  destruct product as [[|[n|]] [|[pr|]]]; simpl;
    try destruct (has_NUL n); simpl; try destruct (Integer_ok pr); simpl;
    try done;
    intros [= <- <-]; exists u, old; eexists;
    (split_and!; [done | done | done | done | ..]); simpl;
    try done; try (by intros ? [= <-]); by intros ? [= <- <-].
Qed.

(** C4, as the code has it: an Update whose body sets no field never
    changes the table and sends no write.  A malformed identifier is
    answered 400 before any statement; otherwise the lookup by key is
    sent first, and the 400 "No valid fields provided for update" is
    raised after it, when the product exists (404 when it does not). *)
Theorem empty_update_after_lookup product_id product env db :
  ProductUpdate.dict_exclude_unset product = [] →
  ∃ r db',
    update_product product_id product env db = (Raise r, db')
    ∧ table db' = table db
    ∧ match UUID product_id with
      | None =>
          r = HTTPException 400 "Invalid product ID format" ∧ db' = db
      | Some u =>
          log db' = log db ++ [SELECT u]
          ∧ r = match table db !! u with
                | Some _ => HTTPException 400 "No valid fields provided for update"
                | None => HTTPException 404 "Product not found"
                end
      end.
Proof.
  intros Hempty. rewrite update_product_eq, Hempty.
  destruct (UUID product_id) as [u|]; [|by eexists _, _].
  destruct (table db !! u) as [old|]; by eexists _, _.
Qed.

(** C3, as the code has it: when the listing query returns no row,
    List raises an [HTTPException] with status 200 and the detail "No
    products found"; GET /products answers 200 with that detail, which
    is not a list, and the table is unchanged. *)
Theorem list_empty_answers_detail page limit offset order_by env db db' :
  query_all order_by limit offset env db = (Return [], db') →
  get_products page limit offset order_by env db
    = (Raise (HTTPException 200 "No products found"), db')
  ∧ app (GET_products page limit offset order_by) env db
    = (mkResponse 200 (detail_body "No products found"), db')
  ∧ is_list_body (body (app (GET_products page limit offset order_by) env db).1)
    = false
  ∧ table db' = table db.
Proof.
  rewrite query_all_eq. unfold app, route. rewrite get_products_eq.
  destruct (column_leb order_by) as [leb|]; [|done]. simpl.
  destruct (bigint_ok limit && bigint_ok offset); [|done].
  intros [= -> <-]. done.
Qed.

(** C9: the outcome of List and the response of GET /products do not
    depend on [page]. *)
Theorem list_ignores_page page page' limit offset order_by env db :
  get_products page limit offset order_by env db
    = get_products page' limit offset order_by env db
  ∧ app (GET_products page limit offset order_by) env db
    = app (GET_products page' limit offset order_by) env db.
Proof. done. Qed.

End operations.

(** ** The invariant of the data model *)

Section invariant.
Context `{UuidLib}.

Lemma valid_update_merged u old product now n pr :
  ProductUpdate.valid product = true →
  row_ok old →
  Product.name (merged u old product now) = Some n →
  Product.price (merged u old product now) = Some pr →
  0 < pr ∧ n ≠ "".
Proof.
  intros Hvalid [Hprice Hname].
  assert (Hlen : ∀ s : string, (1 ≤ py_len s)%nat → s ≠ "").
  { intros s Hs ->. simpl in Hs. lia. }
  destruct product as [[|[n'|]] [|[pr'|]]]; unfold ProductUpdate.valid in Hvalid;
    simpl in *; rewrite ?andb_true_iff, ?bool_decide_eq_true in Hvalid;
    intros [= <-] [= <-]; split; try done; try tauto; apply Hlen; tauto.
Qed.

(** One request keeps the invariant. *)
Lemma app_storage_ok req env db :
  storage_ok db → storage_ok (app req env db).2.
Proof.
  unfold storage_ok. intros Hok.
  destruct req as [|page limit offset order_by|pid|product|pid product|pid];
    unfold app, route, unprocessable.
  - done.
  - rewrite get_products_eq.
    destruct (column_leb order_by) as [leb|]; [|done]. cbv zeta.
    destruct (bigint_ok limit && bigint_ok offset); [|done].
    by destruct (select_rows leb limit offset (table db)).
  - rewrite get_product_eq.
    destruct (UUID pid) as [u|]; [|done].
    by destruct (table db !! u).
  - destruct (ProductCreate.valid product) eqn:Hvalid; [|done].
    rewrite create_product_eq. cbv zeta.
    destruct (has_NUL (ProductCreate.name product)); [done|].
    destruct (Integer_ok (ProductCreate.price product)); [|done].
    destruct (table db !! drawn_uuid env); [done|]. simpl.
    apply map_Forall_insert_2; [|done]. split; simpl.
    + by apply valid_create_price.
    + by apply valid_create_name.
  - destruct (ProductUpdate.valid product) eqn:Hvalid; [|done].
    rewrite update_product_eq.
    destruct (UUID pid) as [u|]; [|done].
    destruct (table db !! u) as [old|] eqn:Hold; [|done].
    destruct (ProductUpdate.dict_exclude_unset product); [done|]. cbv zeta.
    destruct (existsb unsendable _); [done|].
    destruct (existsb out_of_range _); [done|].
    destruct (Product.name (merged u old product (clock env))) as [n|] eqn:Hn;
      [|done].
    destruct (Product.price (merged u old product (clock env))) as [pr|] eqn:Hp;
      [|done].
    simpl. apply map_Forall_insert_2; [|done].
    unfold row_ok. simpl.
    eapply valid_update_merged; [done | by eapply Hok | done | done].
  - rewrite delete_product_eq.
    destruct (UUID pid) as [u|]; [|done].
    destruct (table db !! u); [|done]. simpl.
    by apply map_Forall_delete.
Qed.

Lemma run_storage_ok reqs db :
  storage_ok db → storage_ok (run reqs db).
Proof.
  revert db. induction reqs as [|[req env] reqs IH]; intros db Hok; [done|].
  simpl. apply IH. by apply app_storage_ok.
Qed.

Lemma empty_db_storage_ok : storage_ok empty_db.
Proof. unfold storage_ok. apply map_Forall_empty. Qed.

(** C2: from a table in which every row has a price > 0 and a non-empty
    name, every sequence of List, Get, Create, Update and Delete
    requests (whatever their arguments, clocks and drawn identifiers)
    leads to a table with the same property; and every table reached
    from the empty one has it. *)
Theorem requests_keep_rows_ok reqs db :
  storage_ok db →
  storage_ok (run reqs db) ∧ storage_ok (run reqs empty_db).
Proof.
  intros Hok. split; apply run_storage_ok; [done | apply empty_db_storage_ok].
Qed.

End invariant.

(** ** The claims at concrete requests *)


Import Sample.

Lemma db1_u1 : table db1 !! u1 = Some widget.
Proof. apply lookup_singleton_eq. Qed.

Lemma u1_ne_u2 : u1 ≠ u2.
Proof. intros Heq. apply dsig_eq in Heq. discriminate. Qed.

Lemma db1_u2 : table db1 !! u2 = None.
Proof. apply lookup_singleton_ne, u1_ne_u2. Qed.

Lemma invalid_id_bad_request_witness :
  UUID "not-a-uuid" = None
  ∧ get_product "not-a-uuid" env1 db1
    = (Raise (HTTPException 400 "Invalid product ID format"), db1)
  ∧ update_product "not-a-uuid" (only_price 600) env1 db1
    = (Raise (HTTPException 400 "Invalid product ID format"), db1)
  ∧ delete_product "not-a-uuid" env1 db1
    = (Raise (HTTPException 400 "Invalid product ID format"), db1).
Proof.
  split; [reflexivity|].
  apply invalid_id_bad_request. reflexivity.
Defined.

Lemma absent_id_not_found_witness :
  UUID (uuid_str u2) = Some u2
  ∧ table db1 !! u2 = None
  ∧ get_product (uuid_str u2) env1 db1
    = (Raise (HTTPException 404 "Product not found"), logged db1 [SELECT u2])
  ∧ update_product (uuid_str u2) (only_price 600) env1 db1
    = (Raise (HTTPException 404 "Product not found"), logged db1 [SELECT u2])
  ∧ delete_product (uuid_str u2) env1 db1
    = (Raise (HTTPException 404 "Product not found"), logged db1 [SELECT u2]).
Proof.
  split; [apply UUID_uuid_str|]. split; [apply db1_u2|].
  apply absent_id_not_found; [apply UUID_uuid_str | apply db1_u2].
Defined.

Lemma empty_update_absent_id_not_found_witness :
  UUID (uuid_str u2) = Some u2
  ∧ table db1 !! u2 = None
  ∧ ProductUpdate.dict_exclude_unset no_field = []
  ∧ update_product (uuid_str u2) no_field env1 db1
    = (Raise (HTTPException 404 "Product not found"), logged db1 [SELECT u2])
  ∧ (update_product (uuid_str u2) no_field env1 db1).1
    ≠ Raise (HTTPException 400 "No valid fields provided for update").
Proof.
  split; [apply UUID_uuid_str|]. split; [apply db1_u2|]. split; [reflexivity|].
  apply empty_update_absent_id_not_found;
    [apply UUID_uuid_str | apply db1_u2 | reflexivity].
Defined.

Lemma delete_u1 env :
  delete_product (uuid_str u1) env db1
  = (Return "Product deleted successfully",
     mkDb (delete u1 (table db1)) [SELECT u1; DELETE u1]).
Proof. by rewrite delete_product_eq, UUID_uuid_str, db1_u1. Qed.

Lemma delete_twice_not_found_witness :
  delete_product (uuid_str u1) env1 db1
  = (Return "Product deleted successfully",
     mkDb (delete u1 (table db1)) [SELECT u1; DELETE u1])
  ∧ (delete_product (uuid_str u1) env2
       (mkDb (delete u1 (table db1)) [SELECT u1; DELETE u1])).1
    = Raise (HTTPException 404 "Product not found").
Proof.
  split; [apply delete_u1|].
  apply (delete_twice_not_found (uuid_str u1) env1 env2 db1 _
           "Product deleted successfully").
  apply delete_u1.
Defined.

Lemma create_then_get_witness :
  ProductCreate.valid (ProductCreate.mk "Widget" 500) = true
  ∧ has_NUL (ProductCreate.name (ProductCreate.mk "Widget" 500)) = false
  ∧ (ProductCreate.price (ProductCreate.mk "Widget" 500) ≤ 2147483647)%Z
  ∧ table empty_db !! drawn_uuid env1 = None
  ∧ ∃ record db' db'',
      app (POST_products (ProductCreate.mk "Widget" 500)) env1 empty_db
        = (mkResponse 201 (product_body record), db')
      ∧ ProductBase.name record = "Widget"
      ∧ ProductBase.price record = 500
      ∧ 0 < ProductBase.price record
      ∧ app (GET_product (uuid_str (ProductBase.id record))) env2 db'
        = (mkResponse 200 (product_body record), db'').
Proof.
  split; [reflexivity|]. split; [reflexivity|]. split; [simpl; lia|].
  split; [apply lookup_empty|].
  apply (create_then_get (ProductCreate.mk "Widget" 500) env1 env2 empty_db);
    [reflexivity | reflexivity | simpl; lia | apply lookup_empty].
Defined.

(** C1, the claim as stated fails: the body with name "Big" and price
    2147483648 passes the validation of [ProductCreate] and the drawn
    identifier is not a key of the table, yet the column [Integer]
    refuses the price: POST /products answers 500 after INSERT and
    ROLLBACK, and the table holds no product afterwards.  So does, with
    nothing sent, the body whose name of three characters holds NUL. *)
Lemma create_beyond_Integer_answers_500 :
  ProductCreate.valid (ProductCreate.mk "Big" 2147483648) = true
  ∧ table empty_db !! drawn_uuid env1 = None
  ∧ app (POST_products (ProductCreate.mk "Big" 2147483648)) env1 empty_db
    = (mkResponse 500
         (detail_body "Internal server error while creating product"),
       logged empty_db [INSERT u1; ROLLBACK])
  ∧ status (app (POST_products (ProductCreate.mk "Big" 2147483648))
              env1 empty_db).1 = 500
  ∧ table (app (POST_products (ProductCreate.mk "Big" 2147483648))
             env1 empty_db).2 = table empty_db
  ∧ ProductCreate.valid (ProductCreate.mk nul_name 5) = true
  ∧ app (POST_products (ProductCreate.mk nul_name 5)) env1 empty_db
    = (mkResponse 500 (text_body "Internal Server Error"), empty_db).
Proof.
  assert (Happ :
    app (POST_products (ProductCreate.mk "Big" 2147483648)) env1 empty_db
    = (mkResponse 500
         (detail_body "Internal server error while creating product"),
       logged empty_db [INSERT u1; ROLLBACK])).
  { unfold app, route.
    assert (ProductCreate.valid (ProductCreate.mk "Big" 2147483648) = true)
      as -> by reflexivity.
    rewrite create_product_eq. reflexivity. }
  split_and!; [reflexivity | apply lookup_empty | exact Happ
              | by rewrite Happ | by rewrite Happ | reflexivity |].
  unfold app, route.
  assert (ProductCreate.valid (ProductCreate.mk nul_name 5) = true)
    as -> by reflexivity.
  rewrite create_product_eq. reflexivity.
Qed.

Lemma update_u1_price :
  update_product (uuid_str u1) (only_price 600) env2 db1
  = (Return (load u1 (ProductRow.mk "Widget" 600 (Some 1000) (Some 2000))),
     mkDb (<[u1 := ProductRow.mk "Widget" 600 (Some 1000) (Some 2000)]> (table db1))
          [SELECT u1; UPDATE u1; SELECT u1]).
Proof. by rewrite update_product_eq, UUID_uuid_str, db1_u1. Qed.

Lemma update_merges_supplied_fields_witness :
  update_product (uuid_str u1) (only_price 600) env2 db1
  = (Return (load u1 (ProductRow.mk "Widget" 600 (Some 1000) (Some 2000))),
     mkDb (<[u1 := ProductRow.mk "Widget" 600 (Some 1000) (Some 2000)]> (table db1))
          [SELECT u1; UPDATE u1; SELECT u1])
  ∧ ∃ u old new,
      UUID (uuid_str u1) = Some u
      ∧ table db1 !! u = Some old
      ∧ <[u1 := ProductRow.mk "Widget" 600 (Some 1000) (Some 2000)]> (table db1)
        = <[u := new]> (table db1)
      ∧ load u1 (ProductRow.mk "Widget" 600 (Some 1000) (Some 2000)) = load u new
      ∧ ProductRow.created_at new = ProductRow.created_at old
      ∧ ProductRow.updated_at new = Some 2000
      ∧ (ProductUpdate.name (only_price 600) = Unset →
         ProductRow.name new = ProductRow.name old)
      ∧ (ProductUpdate.price (only_price 600) = Unset →
         ProductRow.price new = ProductRow.price old)
      ∧ (∀ v, ProductUpdate.name (only_price 600) = Given (Some v) →
              ProductRow.name new = v)
      ∧ (∀ v, ProductUpdate.price (only_price 600) = Given (Some v) →
              ProductRow.price new = v)
      ∧ (∀ v, only_price 600 = ProductUpdate.mk Unset (Given (Some v)) →
              new = ProductRow.mk (ProductRow.name old) v (ProductRow.created_at old) (Some 2000)).
Proof.
  split; [apply update_u1_price|].
  exact (update_merges_supplied_fields (uuid_str u1) (only_price 600) env2 db1
           _ _ update_u1_price).
Defined.

Lemma db1_storage_ok : storage_ok db1.
Proof.
  unfold storage_ok, db1. simpl. apply map_Forall_singleton.
  split; simpl; [lia | done].
Qed.

Lemma requests_keep_rows_ok_witness :
  storage_ok db1
  ∧ storage_ok (run session db1) ∧ storage_ok (run session empty_db).
Proof.
  split; [apply db1_storage_ok|].
  apply (requests_keep_rows_ok session db1), db1_storage_ok.
Defined.

Lemma list_empty_db :
  query_all "created_at" 10 0 env1 empty_db
  = (Return [], logged empty_db [SELECT_ALL "created_at" 10 0]).
Proof. reflexivity. Qed.

Lemma list_empty_answers_detail_witness :
  query_all "created_at" 10 0 env1 empty_db
  = (Return [], logged empty_db [SELECT_ALL "created_at" 10 0])
  ∧ get_products 1 10 0 "created_at" env1 empty_db
    = (Raise (HTTPException 200 "No products found"),
       logged empty_db [SELECT_ALL "created_at" 10 0])
  ∧ app (GET_products 1 10 0 "created_at") env1 empty_db
    = (mkResponse 200 (detail_body "No products found"),
       logged empty_db [SELECT_ALL "created_at" 10 0])
  ∧ is_list_body (body (app (GET_products 1 10 0 "created_at") env1 empty_db).1)
    = false
  ∧ table (logged empty_db [SELECT_ALL "created_at" 10 0]) = table empty_db.
Proof.
  split; [apply list_empty_db|].
  apply (list_empty_answers_detail 1 10 0 "created_at" env1 empty_db).
  apply list_empty_db.
Defined.

(** C3, the claim as stated fails: on the empty table the listing query
    returns no row, and GET /products answers 200 with a body that is
    not a list. *)
Lemma list_empty_body_is_not_a_list :
  query_all "created_at" 10 0 env1 empty_db
  = (Return [], logged empty_db [SELECT_ALL "created_at" 10 0])
  ∧ status (app (GET_products 1 10 0 "created_at") env1 empty_db).1 = 200
  ∧ body (app (GET_products 1 10 0 "created_at") env1 empty_db).1
    = detail_body "No products found"
  ∧ is_list_body (body (app (GET_products 1 10 0 "created_at") env1 empty_db).1)
    = false.
Proof. split_and!; reflexivity. Qed.

Lemma empty_update_after_lookup_witness :
  ProductUpdate.dict_exclude_unset no_field = []
  ∧ ∃ r db',
      update_product (uuid_str u1) no_field env2 db1 = (Raise r, db')
      ∧ table db' = table db1
      ∧ match UUID (uuid_str u1) with
        | None =>
            r = HTTPException 400 "Invalid product ID format" ∧ db' = db1
        | Some u =>
            log db' = log db1 ++ [SELECT u]
            ∧ r = match table db1 !! u with
                  | Some _ =>
                      HTTPException 400 "No valid fields provided for update"
                  | None => HTTPException 404 "Product not found"
                  end
        end.
Proof.
  split; [reflexivity|].
  apply (empty_update_after_lookup (uuid_str u1) no_field env2 db1).
  reflexivity.
Defined.

(** C4, the claim as stated fails: on a stored product, the Update with
    no field is answered 400 only after a SELECT was sent; on an absent
    product it is answered 404, not 400. *)
Lemma empty_update_queries_storage :
  update_product (uuid_str u1) no_field env2 db1
  = (Raise (HTTPException 400 "No valid fields provided for update"),
     logged db1 [SELECT u1])
  ∧ log (logged db1 [SELECT u1]) = [SELECT u1]
  ∧ log (logged db1 [SELECT u1]) ≠ log db1
  ∧ update_product (uuid_str u2) no_field env2 db1
    = (Raise (HTTPException 404 "Product not found"), logged db1 [SELECT u2]).
Proof.
  split_and!.
  - by rewrite update_product_eq, UUID_uuid_str, db1_u1.
  - reflexivity.
  - discriminate.
  - by rewrite update_product_eq, UUID_uuid_str, db1_u2.
Qed.

(** The scenario of the spec, status by status, and the record that the
    PATCH returns: price 600, name unchanged, [updated_at] later than
    [created_at]. *)
Example scenario_statuses :
  status <$> serve scenario empty_db = [201; 200; 200; 200; 404; 422; 422].
Proof. vm_compute. reflexivity. Qed.

Example scenario_patched_record :
  match body <$> serve scenario empty_db !! 2%nat with
  | Some (product_body p) =>
      Some (ProductBase.name p, ProductBase.price p,
            ProductBase.created_at p, ProductBase.updated_at p)
  | _ => None
  end = Some ("Widget", 600, 1000, 2000).
Proof. vm_compute. reflexivity. Qed.

Example scenario_leaves_nothing :
  size (table (run scenario empty_db)) = 0%nat.
Proof. vm_compute. reflexivity. Qed.

(** Lengths are numbers of code points: "é" is two bytes and one
    character, and a name of 34 characters of three bytes each passes
    the validation of [ProductCreate]. *)
Example py_len_e_acute : py_len (String "195" (String "169" "")) = 1%nat.
Proof. reflexivity. Qed.

Example valid_34_wide_characters :
  String.length
    (String.concat "" (replicate 34 (String "228" (String "184" (String "173" "")))))
  = 102%nat
  ∧ ProductCreate.valid
      (ProductCreate.mk
         (String.concat ""
            (replicate 34 (String "228" (String "184" (String "173" ""))))) 5)
    = true.
Proof. split; vm_compute; reflexivity. Qed.

(** The listing with an OFFSET beyond the range of the database. *)
Example list_beyond_bigint :
  get_products 1 10 9223372036854775808 "price" env1 db1
  = (Raise (HTTPException 500 "Internal server error while retrieving products"),
     logged db1 [SELECT_ALL "price" 10 9223372036854775808]).
Proof. by rewrite get_products_eq. Qed.

(** A PATCH whose price the column [Integer] does not hold is answered
    500 after UPDATE and ROLLBACK, also when the body sets the name to
    [null]. *)
Example update_beyond_Integer :
  update_product (uuid_str u1)
    (ProductUpdate.mk (Given None) (Given (Some 2147483648))) env2 db1
  = (Raise (HTTPException 500 "Internal server error while updating product"),
     logged db1 [SELECT u1; UPDATE u1; ROLLBACK]).
Proof. by rewrite update_product_eq, UUID_uuid_str, db1_u1. Qed.

(** * Further properties of the handlers *)

Section effects.
Context `{uuid_lib : UuidLib}.

(** X1: a handler that raises has written nothing: whenever one of the
    five handlers ends in an exception, the table is what it was. *)
Theorem raising_handlers_write_nothing env db e db' :
  (∀ page limit offset order_by,
      get_products page limit offset order_by env db = (Raise e, db') →
      table db' = table db)
  ∧ (∀ product_id,
      get_product product_id env db = (Raise e, db') → table db' = table db)
  ∧ (∀ product,
      create_product product env db = (Raise e, db') → table db' = table db)
  ∧ (∀ product_id product,
      update_product product_id product env db = (Raise e, db') →
      table db' = table db)
  ∧ (∀ product_id,
      delete_product product_id env db = (Raise e, db') → table db' = table db).
Proof.
  split_and!.
  - intros page limit offset order_by. rewrite get_products_eq.
    destruct (column_leb order_by) as [leb|]; [|by intros [= _ <-]]. cbv zeta.
    destruct (bigint_ok limit && bigint_ok offset);
      [|by intros [= _ <-]].
    destruct (select_rows leb limit offset (table db)); by intros [= _ <-].
  - intros pid. rewrite get_product_eq.
    destruct (UUID pid) as [u|]; [|by intros [= _ <-]].
    destruct (table db !! u); by intros [= _ <-].
  - intros product. rewrite create_product_eq. cbv zeta.
    destruct (has_NUL (ProductCreate.name product)); [by intros [= _ <-]|].
    destruct (Integer_ok (ProductCreate.price product)); [|by intros [= _ <-]].
    destruct (table db !! drawn_uuid env); [by intros [= _ <-] | done].
  - intros pid product. rewrite update_product_eq.
    destruct (UUID pid) as [u|]; [|by intros [= _ <-]].
    destruct (table db !! u) as [old|]; [|by intros [= _ <-]].
    destruct (ProductUpdate.dict_exclude_unset product); [by intros [= _ <-]|].
    cbv zeta.
    destruct (existsb unsendable _); [by intros [= _ <-]|].
    destruct (existsb out_of_range _); [by intros [= _ <-]|].
    destruct (Product.name (merged u old product (clock env)));
      [|by intros [= _ <-]].
    destruct (Product.price (merged u old product (clock env)));
      [done | by intros [= _ <-]].
  - intros pid. rewrite delete_product_eq.
    destruct (UUID pid) as [u|]; [|by intros [= _ <-]].
    destruct (table db !! u); [done | by intros [= _ <-]].
Qed.

(** The table after a request, request by request. *)
Lemma app_table req env db :
  table (app req env db).2 = table db
  ∨ (∃ product, req = POST_products product
       ∧ ProductCreate.valid product = true
       ∧ table db !! drawn_uuid env = None
       ∧ table (app req env db).2
         = <[drawn_uuid env :=
               ProductRow.mk (ProductCreate.name product)
                 (ProductCreate.price product)
                 (Some (clock env)) (Some (clock env))]> (table db))
  ∨ (∃ product_id product u old n pr,
       req = PATCH_product product_id product
       ∧ ProductUpdate.valid product = true
       ∧ UUID product_id = Some u
       ∧ table db !! u = Some old
       ∧ Product.name (merged u old product (clock env)) = Some n
       ∧ Product.price (merged u old product (clock env)) = Some pr
       ∧ table (app req env db).2
         = <[u := ProductRow.mk n pr (ProductRow.created_at old)
                    (Some (clock env))]> (table db))
  ∨ (∃ product_id u old,
       req = DELETE_product product_id
       ∧ UUID product_id = Some u
       ∧ table db !! u = Some old
       ∧ table (app req env db).2 = delete u (table db)).
Proof.
  destruct req as [|page limit offset order_by|pid|product|pid product|pid];
    unfold app, route, unprocessable.
  - by left.
  - left. rewrite get_products_eq.
    destruct (column_leb order_by) as [leb|]; [|done]. cbv zeta.
    destruct (bigint_ok limit && bigint_ok offset); [|done].
    by destruct (select_rows leb limit offset (table db)).
  - left. rewrite get_product_eq.
    destruct (UUID pid) as [u|]; [|done]. by destruct (table db !! u).
  - destruct (ProductCreate.valid product) eqn:Hvalid; [|by left].
    rewrite create_product_eq. cbv zeta.
    destruct (has_NUL (ProductCreate.name product)); [by left|].
    destruct (Integer_ok (ProductCreate.price product)); [|by left].
    destruct (table db !! drawn_uuid env) eqn:Hu; [by left|].
    right; left. by exists product.
  - destruct (ProductUpdate.valid product) eqn:Hvalid; [|by left].
    rewrite update_product_eq.
    destruct (UUID pid) as [u|] eqn:Hu; [|by left].
    destruct (table db !! u) as [old|] eqn:Hold; [|by left].
    destruct (ProductUpdate.dict_exclude_unset product) eqn:Hd; [by left|].
    cbv zeta.
    destruct (existsb unsendable _); [by left|].
    destruct (existsb out_of_range _); [by left|].
    destruct (Product.name (merged u old product (clock env))) as [n|] eqn:Hn;
      [|by left].
    destruct (Product.price (merged u old product (clock env))) as [pr|] eqn:Hp;
      [|by left].
    right; right; left. exists pid, product, u, old, n, pr.
    split_and!; try done. simpl. do 3 f_equal.
    by destruct product as [[|?] [|?]].
  - rewrite delete_product_eq.
    destruct (UUID pid) as [u|] eqn:Hu; [|by left].
    destruct (table db !! u) as [old|] eqn:Hold; [|by left].
    right; right; right. by exists pid, u, old.
Qed.

(** X2: the only key a request can add to the table is the identifier
    drawn by [uuid.uuid4()]; only a DELETE removes a key and only a POST
    adds one. *)
Theorem request_adds_only_drawn_key req env db :
  dom (table (app req env db).2) ⊆ dom (table db) ∪ {[drawn_uuid env]}
  ∧ ((∀ product_id, req ≠ DELETE_product product_id) →
     dom (table db) ⊆ dom (table (app req env db).2))
  ∧ ((∀ product, req ≠ POST_products product) →
     dom (table (app req env db).2) ⊆ dom (table db)).
Proof.
  destruct (app_table req env db)
    as [-> | [(product & -> & Hvalid & Hnew & ->)
           | [(pid & product & u & old & n & pr & -> & _ & _ & Hold & _ & _ & ->)
           | (pid & u & old & -> & _ & Hold & ->)]]].
  - split_and!; [apply union_subseteq_l | by intros _ | by intros _].
  - rewrite dom_insert_L. split_and!.
    + apply union_subseteq. split; [apply union_subseteq_r | apply union_subseteq_l].
    + intros _. apply union_subseteq_r.
    + intros Hne. by destruct (Hne product).
  - apply (elem_of_dom_2 (D := gset uuid)) in Hold.
    rewrite dom_insert_L.
    assert ({[u]} ∪ dom (table db) = dom (table db)) as ->.
    { apply subseteq_union_1_L. by apply singleton_subseteq_l. }
    split_and!; try intros _; [apply union_subseteq_l | done | done].
  - rewrite dom_delete_L. split_and!.
    + etrans; [apply subseteq_difference_l; reflexivity | apply union_subseteq_l].
    + intros Hne. by destruct (Hne pid).
    + intros _. by apply subseteq_difference_l.
Qed.

(** X3: [created_at] is set once: whatever the request, a row that is in
    the table before and after it has the [created_at] it had. *)
Theorem created_at_is_kept req env db u r r' :
  table db !! u = Some r →
  table (app req env db).2 !! u = Some r' →
  ProductRow.created_at r' = ProductRow.created_at r.
Proof.
  intros Hr.
  destruct (app_table req env db)
    as [-> | [(product & -> & Hvalid & Hnew & ->)
           | [(pid & product & u' & old & n & pr & -> & _ & _ & Hold & _ & _ & ->)
           | (pid & u' & old & -> & _ & Hold & ->)]]].
  - rewrite Hr. by intros [= <-].
  - rewrite lookup_insert_ne by congruence. rewrite Hr. by intros [= <-].
  - destruct (decide (u' = u)) as [->|Hne].
    + rewrite lookup_insert_eq. intros [= <-]. simpl. congruence.
    + rewrite lookup_insert_ne by done. rewrite Hr. by intros [= <-].
  - destruct (decide (u' = u)) as [->|Hne].
    + by rewrite lookup_delete_eq.
    + rewrite lookup_delete_ne by done. rewrite Hr. by intros [= <-].
Qed.

(** X4: a Delete that returns has removed the identified row and only
    that row; from then on Get and Update of that identifier raise the
    404. *)
Theorem delete_removes_the_row product_id env db message db' :
  delete_product product_id env db = (Return message, db') →
  ∃ u,
    UUID product_id = Some u
    ∧ is_Some (table db !! u)
    ∧ table db' = delete u (table db)
    ∧ (∀ u', u' ≠ u → table db' !! u' = table db !! u')
    ∧ ∀ env' product,
        (get_product product_id env' db').1
          = Raise (HTTPException 404 "Product not found")
        ∧ (update_product product_id product env' db').1
          = Raise (HTTPException 404 "Product not found").
Proof.
  rewrite delete_product_eq.
  destruct (UUID product_id) as [u|] eqn:Hu; [|done].
  destruct (table db !! u) as [r|] eqn:Hr; [|done].
  intros [= _ <-]. exists u. simpl. split_and!; try done.
  - intros u' Hne. by apply lookup_delete_ne.
  - intros env' product.
    rewrite get_product_eq, update_product_eq, Hu. simpl.
    by rewrite lookup_delete_eq.
Qed.

(** X5: POST /products answers 201 exactly when the body passes
    validation, its name holds no NUL, its price is at most 2147483647
    (the largest value of the column [Integer]) and the drawn identifier
    is unused; the table then gains exactly one row, with the name and
    price of the body and with [created_at] equal to [updated_at]; in
    every other case the table is unchanged. *)
Theorem create_stores_one_row product env db :
  (status (app (POST_products product) env db).1 = 201
   ↔ ProductCreate.valid product = true
     ∧ has_NUL (ProductCreate.name product) = false
     ∧ (ProductCreate.price product ≤ 2147483647)%Z
     ∧ table db !! drawn_uuid env = None)
  ∧ (status (app (POST_products product) env db).1 = 201 →
     table (app (POST_products product) env db).2
       = <[drawn_uuid env :=
             ProductRow.mk (ProductCreate.name product)
               (ProductCreate.price product)
               (Some (clock env)) (Some (clock env))]> (table db)
     ∧ size (table (app (POST_products product) env db).2)
       = S (size (table db)))
  ∧ (status (app (POST_products product) env db).1 ≠ 201 →
     table (app (POST_products product) env db).2 = table db).
Proof.
  unfold app, route, unprocessable.
  destruct (ProductCreate.valid product) eqn:Hvalid.
  - rewrite create_product_eq. cbv zeta.
    destruct (has_NUL (ProductCreate.name product)) eqn:Hnul; simpl.
    { split_and!; [split; [done | by intros (_ & ? & _)] | done | done]. }
    destruct (Integer_ok (ProductCreate.price product)) eqn:Hint; simpl.
    + apply Integer_ok_max in Hint.
      destruct (table db !! drawn_uuid env) eqn:Hu; simpl.
      * split_and!; [split; [done | by intros (_ & _ & _ & ?)] | done | done].
      * unfold serialize_product.
        rewrite (from_orm_load _ _ (clock env) (clock env))
          by (try done; by apply valid_create_price).
        simpl. split_and!; [done | | done].
        intros _. split; [done|]. by apply map_size_insert_None.
    + split_and!; [split; [done|] | done | done].
      intros (_ & _ & Hmax & _).
      by rewrite (valid_create_Integer_ok _ Hvalid Hmax) in Hint.
  - simpl. split_and!; [split; [done | by intros [? _]] | done | done].
Qed.

(** X8: what Update returns is what a following Get returns. *)
Theorem update_then_get product_id product env env' db p db' :
  update_product product_id product env db = (Return p, db') →
  (get_product product_id env' db').1 = Return p.
Proof.
  rewrite update_product_eq, get_product_eq.
  destruct (UUID product_id) as [u|]; [|done].
  destruct (table db !! u) as [old|]; [|done].
  destruct (ProductUpdate.dict_exclude_unset product); [done|]. cbv zeta.
  destruct (existsb unsendable _); [done|].
  destruct (existsb out_of_range _); [done|].
  destruct (Product.name (merged u old product (clock env))); [|done].
  destruct (Product.price (merged u old product (clock env))); [|done].
  intros [= <- <-]. simpl. by rewrite lookup_insert_eq.
Qed.

(** One request keeps every row presentable. *)
Lemma app_storage_presentable req env db :
  storage_presentable db → storage_presentable (app req env db).2.
Proof.
  unfold storage_presentable. intros Hok.
  destruct (app_table req env db)
    as [-> | [(product & -> & Hvalid & Hnew & ->)
           | [(pid & product & u & old & n & pr & -> & Hvalid & _ & Hold & Hn & Hp & ->)
           | (pid & u & old & -> & _ & Hold & ->)]]].
  - done.
  - apply map_Forall_insert_2; [|done]. unfold row_presentable.
    rewrite (from_orm_load _ _ (clock env) (clock env)); try done.
    by apply valid_create_price.
  - apply map_Forall_insert_2; [|done].
    pose proof (Hok u old Hold) as [b Hb]. unfold row_presentable.
    unfold ProductBase.from_orm, load in Hb |- *. simpl in *.
    destruct (ProductRow.created_at old) as [c|]; [|done].
    destruct (ProductRow.updated_at old) as [m|]; [|done].
    case_bool_decide as Hprice; [|done].
    assert (0 < pr) as Hpr.
    { destruct product as [[|[n'|]] [|[pr'|]]];
        unfold ProductUpdate.valid in Hvalid; simpl in *;
        rewrite ?andb_true_iff, ?bool_decide_eq_true in Hvalid;
        try done; injection Hp as <-; tauto. }
    by rewrite bool_decide_eq_true_2.
  - by apply map_Forall_delete.
Qed.

Lemma run_storage_presentable reqs db :
  storage_presentable db → storage_presentable (run reqs db).
Proof.
  revert db. induction reqs as [|[req env] reqs IH]; intros db Hok; [done|].
  simpl. by apply IH, app_storage_presentable.
Qed.

(** X9: in every table reached from the empty one, a stored product can
    be read: GET /products/{id} of a stored key answers 200 with the
    stored name, price and timestamps, after one lookup. *)
Theorem stored_product_is_served reqs product_id u r env :
  UUID product_id = Some u →
  table (run reqs empty_db) !! u = Some r →
  ∃ c m,
    ProductRow.created_at r = Some c
    ∧ ProductRow.updated_at r = Some m
    ∧ app (GET_product product_id) env (run reqs empty_db)
      = (mkResponse 200
           (product_body
              (ProductBase.mk u (ProductRow.name r) (ProductRow.price r) c m)),
         logged (run reqs empty_db) [SELECT u]).
Proof.
  intros Hu Hr.
  assert (storage_presentable (run reqs empty_db)) as Hok.
  { apply run_storage_presentable. unfold storage_presentable.
    apply map_Forall_empty. }
  pose proof (Hok u r Hr) as [b Hb].
  unfold app, route. rewrite get_product_eq, Hu, Hr. simpl.
  unfold serialize_product. unfold ProductBase.from_orm, load in Hb |- *.
  simpl in *.
  destruct (ProductRow.created_at r) as [c|]; [|done].
  destruct (ProductRow.updated_at r) as [m|]; [|done].
  case_bool_decide; [|done]. by exists c, m.
Qed.

Lemma from_orm_price p b : ProductBase.from_orm p = Some b → 0 < ProductBase.price b.
Proof.
  unfold ProductBase.from_orm.
  destruct (Product.name p), (Product.price p), (Product.created_at p),
    (Product.updated_at p); try done.
  case_bool_decide; [|done]. by intros [= <-].
Qed.

(** X10: no response carries a price that is not positive: in a product
    body the price is > 0, and so is every price of a list body,
    whatever the table holds. *)
Theorem responses_carry_positive_prices req env db :
  match body (app req env db).1 with
  | product_body p => 0 < ProductBase.price p
  | products_body l => Forall (λ p, 0 < ProductBase.price p) l
  | _ => True
  end.
Proof.
  assert (Hone : ∀ st (r : outcome Product.t),
    match body (respond st serialize_product r) with
    | product_body p => 0 < ProductBase.price p
    | products_body l => Forall (λ p, 0 < ProductBase.price p) l
    | _ => True
    end).
  { intros st [p|[]]; simpl; try done. unfold serialize_product.
    destruct (ProductBase.from_orm p) as [b|] eqn:Hb; simpl; [|done].
    by eapply from_orm_price. }
  destruct req as [|page limit offset order_by|pid|product|pid product|pid];
    unfold app, route, unprocessable; simpl; try done.
  - destruct (get_products page limit offset order_by env db) as [[l|[]] ?];
      simpl; try done.
    unfold serialize_products.
    destruct (mapM ProductBase.from_orm l) as [bs|] eqn:Hbs; simpl; [|done].
    apply mapM_Some in Hbs. induction Hbs as [|p b l bs Hb _ IH]; [done|].
    constructor; [by eapply from_orm_price | done].
  - destruct (get_product pid env db) as [r ?]. apply Hone.
  - destruct (ProductCreate.valid product); [|done].
    destruct (create_product product env db) as [r ?]. apply Hone.
  - destruct (ProductUpdate.valid product); [|done].
    destruct (update_product pid product env db) as [r ?]. apply Hone.
  - by destruct (delete_product pid env db) as [[m|[]] ?].
Qed.

End effects.

(** ** Listing *)

Lemma select_rows_window leb limit offset t :
  select_rows leb limit offset t = uncurry load <$> window leb limit offset t.
Proof. unfold select_rows, window. by rewrite fmap_take, fmap_drop. Qed.

Lemma window_stored leb limit offset t u r :
  (u, r) ∈ window leb limit offset t → t !! u = Some r.
Proof.
  unfold window. intros Hin.
  apply subseteq_take, subseteq_drop in Hin.
  rewrite merge_sort_Permutation in Hin. by apply elem_of_map_to_list.
Qed.

Lemma window_NoDup leb limit offset t :
  NoDup (window leb limit offset t).*1.
Proof.
  unfold window.
  assert (NoDup (merge_sort (λ x y, leb x y) (map_to_list t)).*1) as Hnodup.
  { rewrite merge_sort_Permutation. apply NoDup_fst_map_to_list. }
  apply (sublist_NoDup _ _ Hnodup).
  apply fmap_sublist.
  etrans; [apply sublist_take | apply sublist_drop].
Qed.

Lemma Sorted_drop {A} (R : relation A) n l : Sorted R l → Sorted R (drop n l).
Proof.
  revert l. induction n as [|n IH]; intros l Hl; [by rewrite drop_0|].
  destruct l as [|x l]; [done|]. simpl. apply IH. by inversion Hl.
Qed.

Lemma Sorted_take {A} (R : relation A) n l : Sorted R l → Sorted R (take n l).
Proof.
  intros Hsorted. revert n.
  induction Hsorted as [|x l Hl IH Hx]; intros n; [by rewrite take_nil|].
  destruct n as [|n]; simpl; constructor; [apply IH|].
  destruct Hx as [|y l' Hxy]; destruct n; simpl; by constructor.
Qed.

Lemma nulls_last_leb_total x y :
  nulls_last_leb x y = true ∨ nulls_last_leb y x = true.
Proof.
  destruct x as [a|], y as [b|]; simpl; auto.
  rewrite !Z.leb_le. lia.
Qed.

Lemma column_leb_total order_by leb :
  column_leb order_by = Some leb → Total (λ x y, Is_true (leb x y)).
Proof.
  unfold column_leb. intros Hcol x y.
  repeat match type of Hcol with
    | (if ?b then _ else _) = _ =>
        destruct b;
        [injection Hcol as <-; rewrite !Is_true_true;
         first [ rewrite !N.leb_le; lia
               | apply String.leb_total
               | rewrite !Z.leb_le; lia
               | apply nulls_last_leb_total ]|]
    end.
  done.
Qed.

Lemma get_products_Return page limit offset order_by env db l db' :
  get_products page limit offset order_by env db = (Return l, db') →
  ∃ leb,
    column_leb order_by = Some leb
    ∧ (0 ≤ limit)%Z ∧ (0 ≤ offset)%Z
    ∧ l = select_rows leb limit offset (table db)
    ∧ l ≠ []
    ∧ db' = logged db [SELECT_ALL order_by limit offset].
Proof.
  rewrite get_products_eq.
  destruct (column_leb order_by) as [leb|]; [|done]. cbv zeta.
  destruct (bigint_ok limit && bigint_ok offset) eqn:Hfits; [|done].
  apply andb_true_iff in Hfits as [Hl Ho]. unfold bigint_ok in Hl, Ho.
  rewrite andb_true_iff, !bool_decide_eq_true in Hl, Ho.
  destruct (select_rows leb limit offset (table db)) as [|p ps] eqn:Hrows;
    [done|].
  intros [= <- <-]. exists leb. split_and!; try done; lia.
Qed.

(** X11: when List returns, it returns at least one and at most [limit]
    products, each the row stored under its key and no key twice, and
    the table is unchanged. *)
Theorem list_returns_stored_rows page limit offset order_by env db l db' :
  get_products page limit offset order_by env db = (Return l, db') →
  l ≠ []
  ∧ (length l ≤ Z.to_nat limit)%nat
  ∧ NoDup (Product.id <$> l)
  ∧ Forall (λ p, ∃ r, table db !! Product.id p = Some r
                      ∧ p = load (Product.id p) r) l
  ∧ table db' = table db.
Proof.
  intros (leb & _ & _ & _ & -> & Hne & ->)%get_products_Return.
  split_and!; try done.
  - unfold select_rows. rewrite length_take. lia.
  - rewrite select_rows_window, <- list_fmap_compose.
    replace (Product.id ∘ uncurry load <$> window leb limit offset (table db))
      with (window leb limit offset (table db)).*1.
    + apply window_NoDup.
    + apply list_fmap_ext. by intros i [u r] _.
  - rewrite select_rows_window. apply Forall_forall. intros p Hp.
    apply list_elem_of_fmap in Hp as ([u r] & -> & Hin).
    exists r. split; [|done]. by eapply window_stored.
Qed.

(** List returns the rows in the order of the column that [order_by]
    names: the products returned are stored rows that are sorted by
    that column's comparison, loaded one by one. *)
Lemma list_in_column_order page limit offset order_by leb env db l db' :
  column_leb order_by = Some leb →
  get_products page limit offset order_by env db = (Return l, db') →
  ∃ rows,
    l = uncurry load <$> rows
    ∧ Sorted (λ x y, leb x y) rows
    ∧ ∀ u r, (u, r) ∈ rows → table db !! u = Some r.
Proof.
  intros Hcol (leb' & Hcol' & _ & _ & -> & _ & _)%get_products_Return.
  assert (leb' = leb) as -> by congruence.
  exists (window leb limit offset (table db)). split_and!.
  - apply select_rows_window.
  - unfold window. apply Sorted_take, Sorted_drop.
    apply (Sorted_merge_sort _ (Total0 := column_leb_total _ _ Hcol)).
  - intros u r. apply window_stored.
Qed.

#[global] Instance price_le_transitive : Transitive price_le.
Proof.
  intros p q r. unfold price_le.
  destruct (Product.price p), (Product.price q), (Product.price r);
    try done. lia.
Qed.

(** X12: with [order_by="price"], List returns the products in
    ascending order of price: each product returned has a price that is
    at most the price of every product after it. *)
Theorem list_by_price_is_ascending page limit offset env db l db' :
  get_products page limit offset "price" env db = (Return l, db') →
  StronglySorted price_le l.
Proof.
  intros Hlist.
  destruct (list_in_column_order page limit offset "price" _ env db l db'
              eq_refl Hlist) as (rows & -> & Hsorted & _).
  apply Sorted_StronglySorted; [apply _|].
  eapply Sorted_fmap; [|exact Hsorted].
  intros [u r] [u' r'] Hle. unfold price_le. simpl in *.
  by apply Is_true_true, Z.leb_le in Hle.
Qed.

(** X13: a window outside the rows is answered like an empty table: for
    an [order_by] that names a column and a [limit] and an [offset] that
    the database takes (from 0 to 9223372036854775807), with
    [limit = 0], or with an [offset] that is at least the number of
    rows, GET /products answers 200 with the detail "No products found",
    whatever the table holds. *)
Theorem list_outside_window page limit offset order_by leb env db :
  column_leb order_by = Some leb →
  (0 ≤ limit < 9223372036854775808)%Z →
  (0 ≤ offset < 9223372036854775808)%Z →
  limit = 0 ∨ (Z.of_nat (size (table db)) ≤ offset)%Z →
  app (GET_products page limit offset order_by) env db
  = (mkResponse 200 (detail_body "No products found"),
     logged db [SELECT_ALL order_by limit offset]).
Proof.
  intros Hcol Hl Ho Hout. unfold app, route.
  rewrite get_products_eq, Hcol. cbv zeta.
  unfold bigint_ok. rewrite !bool_decide_eq_true_2 by lia. simpl.
  assert (select_rows leb limit offset (table db) = []) as ->; [|done].
  unfold select_rows. destruct Hout as [-> | Hout]; [done|].
  rewrite drop_ge; [by rewrite take_nil|].
  rewrite length_fmap, merge_sort_Permutation, length_map_to_list. lia.
Qed.

(** * The logging formatter *)

Module ColoredFormatterFacts.
Import ColoredFormatter.

Lemma append_cons c s t : String c s +:+ t = String c (s +:+ t).
Proof. reflexivity. Qed.

Lemma append_nil_l s : "" +:+ s = s.
Proof. reflexivity. Qed.

Lemma append_assoc s t r : (s +:+ t) +:+ r = s +:+ t +:+ r.
Proof. induction s as [|c s IH]; [done|]. by rewrite !append_cons, IH. Qed.


Lemma split_not_nil sep s : split sep s ≠ [].
Proof.
  destruct s as [|c s]; simpl; [done|].
  destruct (decide (c = sep)); [done|]. by destruct (split sep s).
Qed.

Lemma join_cons_char sep c piece pieces :
  join sep (String c piece :: pieces) = String c (join sep (piece :: pieces)).
Proof. by destruct pieces. Qed.

Lemma join_cons sep piece pieces :
  pieces ≠ [] → join sep (piece :: pieces) = piece +:+ sep +:+ join sep pieces.
Proof. by destruct pieces. Qed.

(** Joining what was split gives the string back. *)
Lemma join_split sep s : join (String sep "") (split sep s) = s.
Proof.
  induction s as [|c s IH]; [done|]. simpl.
  destruct (decide (c = sep)) as [->|Hne].
  - rewrite join_cons by apply split_not_nil. by rewrite IH.
  - pose proof (split_not_nil sep s) as Hnil.
    destruct (split sep s) as [|piece pieces]; [done|].
    by rewrite join_cons_char, IH.
Qed.

Lemma split_dot_free piece : dot_free piece = true → split "." piece = [piece].
Proof.
  induction piece as [|c piece IH]; [done|]. simpl.
  destruct (decide (c = "."%char)); [done|]. intros Hfree. by rewrite IH.
Qed.

Lemma split_append piece rest :
  dot_free piece = true →
  split "." (piece +:+ "." +:+ rest) = piece :: split "." rest.
Proof.
  induction piece as [|c piece IH]; [done|].
  intros Hfree. rewrite append_cons. cbn [split dot_free] in *.
  destruct (decide (c = "."%char)); [done|]. by rewrite IH.
Qed.

(** Splitting what was joined from pieces without a dot gives the
    pieces back. *)
Lemma split_join pieces :
  pieces ≠ [] → Forall (λ piece, dot_free piece = true) pieces →
  split "." (join "." pieces) = pieces.
Proof.
  intros Hnil Hfree. induction Hfree as [|piece pieces Hpiece Hfree IH]; [done|].
  destruct pieces as [|piece' pieces]; [by apply split_dot_free|].
  rewrite join_cons by done. rewrite split_append by done.
  f_equal. by apply IH.
Qed.

Lemma join_app sep l1 l2 :
  l1 ≠ [] → l2 ≠ [] →
  join sep (l1 ++ l2) = join sep l1 +:+ sep +:+ join sep l2.
Proof.
  intros Hl1 Hl2. induction l1 as [|piece l1 IH]; [done|].
  destruct l1 as [|piece' l1].
  - change ([piece] ++ l2) with (piece :: l2). by rewrite join_cons.
  - change ((piece :: piece' :: l1) ++ l2)
      with (piece :: ((piece' :: l1) ++ l2)).
    rewrite join_cons by done. rewrite IH by done.
    rewrite (join_cons sep piece (piece' :: l1)) by done.
    by rewrite !append_assoc.
Qed.

(** X14: the route of a log line is made of the last two dot-separated
    parts of the logger name: for a name joined from parts that hold no
    dot, [route_of] is the last two parts joined by a dot (the whole
    name when there are at most two). *)
Theorem route_is_last_two_parts parts :
  parts ≠ [] →
  Forall (λ part, dot_free part = true) parts →
  route_of (join "." parts) = join "." (last_two parts)
  ∧ ((length parts ≤ 2)%nat → route_of (join "." parts) = join "." parts).
Proof.
  intros Hnil Hfree. unfold route_of. rewrite split_join by done.
  split; [done|]. intros Hlen. unfold last_two.
  replace (length parts - 2)%nat with 0%nat by lia. done.
Qed.

(** X15: whatever the logger name, the route is its end: the name is
    the route, or some prefix, a dot and the route. *)
Theorem route_is_a_suffix logger_name :
  route_of logger_name = logger_name
  ∨ ∃ prefix, logger_name = prefix +:+ "." +:+ route_of logger_name.
Proof.
  unfold route_of, last_two.
  pose proof (join_split "." logger_name) as Hjoin.
  set (parts := split "." logger_name) in *.
  destruct (decide (length parts ≤ 2)%nat) as [Hle|Hgt].
  - left. replace (length parts - 2)%nat with 0%nat by lia. done.
  - right. exists (join "." (take (length parts - 2) parts)).
    rewrite <- join_app.
    + by rewrite take_drop.
    + intros Hnil. apply (f_equal length) in Hnil.
      rewrite length_take in Hnil. simpl in Hnil. lia.
    + intros Hnil. apply (f_equal length) in Hnil.
      rewrite length_drop in Hnil. simpl in Hnil. lia.
Qed.

Lemma COLORS_keys level color :
  COLORS !! level = Some color →
  level ∈ ["INFO"; "WARNING"; "ERROR"; "CRITICAL"; "DEBUG"].
Proof.
  unfold COLORS. intros Hin%elem_of_list_to_map_2.
  repeat (apply elem_of_cons in Hin as [[= -> _]|Hin];
          [repeat (first [by apply list_elem_of_here | apply list_elem_of_further])|]).
  by apply elem_of_nil in Hin.
Qed.

Lemma colored_is_no_key level color :
  COLORS !! level = Some color →
  COLORS !! (color +:+ level +:+ Style_RESET_ALL) = None.
Proof.
  intros Hcolor. pose proof (COLORS_keys _ _ Hcolor) as Hkey.
  repeat (apply elem_of_cons in Hkey as [->|Hkey];
          [vm_compute in Hcolor; injection Hcolor as <-; by vm_compute|]).
  by apply elem_of_nil in Hkey.
Qed.

(** X16: [format] changes the record it is given: afterwards the
    message starts with the route and " - ", and the level name of a
    standard level is wrapped in its colour and the reset sequence;
    the line returned is that level name, ":  " and that message.
    Formatting the same record again puts the route before the message
    a second time, and leaves the level name as it is. *)
Theorem format_changes_the_record record :
  let '(line, record1) := format record in
  let '(line2, record2) := format record1 in
  msg record1 = route_of (name record) +:+ " - " +:+ msg record
  ∧ name record1 = name record
  ∧ levelname record1
    = match COLORS !! levelname record with
      | Some color => color +:+ levelname record +:+ Style_RESET_ALL
      | None => levelname record
      end
  ∧ line = levelname record1 +:+ ":  " +:+ msg record1
  ∧ msg record2
    = route_of (name record) +:+ " - "
      +:+ route_of (name record) +:+ " - " +:+ msg record
  ∧ levelname record2 = levelname record1.
Proof.
  unfold format. simpl. split_and!; try done.
  destruct (COLORS !! levelname record) as [color|] eqn:Hcolor.
  - by rewrite (colored_is_no_key _ _ Hcolor).
  - by rewrite Hcolor.
Qed.

Example format_info_line :
  (format (mkLogRecord "INFO" "routes.products" "Retrieved 3 products successfully")).1
  = CSI +:+ "32mINFO" +:+ CSI +:+ "0m:  routes.products - Retrieved 3 products successfully".
Proof. vm_compute. reflexivity. Qed.

End ColoredFormatterFacts.

(** * The load script against the service *)

Module ScriptFacts.
Import ColoredFormatterFacts.

Section script.
Context `{uuid_lib : UuidLib}.










Lemma create_product_result product_data env db :
  Script.create_product product_data env db
  = if ProductCreate.valid product_data then
      if has_NUL (ProductCreate.name product_data) then (false, db)
      else if Integer_ok (ProductCreate.price product_data) then
        match table db !! drawn_uuid env with
        | None =>
            (true,
             mkDb (<[drawn_uuid env :=
                       ProductRow.mk (ProductCreate.name product_data)
                         (ProductCreate.price product_data)
                         (Some (clock env)) (Some (clock env))]> (table db))
                  (log db ++ [INSERT (drawn_uuid env); SELECT (drawn_uuid env)]))
        | Some _ =>
            (false, logged db [INSERT (drawn_uuid env); ROLLBACK])
        end
      else (false, logged db [INSERT (drawn_uuid env); ROLLBACK])
    else (false, db).
Proof.
  unfold Script.create_product, app, route, unprocessable.
  destruct (ProductCreate.valid product_data) eqn:Hvalid; [|done].
  rewrite create_product_eq. cbv zeta.
  destruct (has_NUL (ProductCreate.name product_data)); [done|].
  destruct (Integer_ok (ProductCreate.price product_data)); [|done].
  destruct (table db !! drawn_uuid env); [done|]. simpl.
  unfold serialize_product.
  rewrite (from_orm_load _ _ (clock env) (clock env))
    by (try done; by apply valid_create_price).
  done.
Qed.

(** X18: the script's [create_product] returns [True] exactly when the
    service stored the product: for a body that passes validation, with
    a name that holds no NUL and a price of at most 2147483647 (the
    largest value of the column [Integer]), when the identifier drawn by
    the service is unused; the row stored then has the name and the
    price that were posted.  When it returns [False] the table is
    unchanged. *)
Theorem script_create_reports_storage product_data env db :
  ((Script.create_product product_data env db).1 = true
   ↔ ProductCreate.valid product_data = true
     ∧ has_NUL (ProductCreate.name product_data) = false
     ∧ (ProductCreate.price product_data ≤ 2147483647)%Z
     ∧ table db !! drawn_uuid env = None)
  ∧ ((Script.create_product product_data env db).1 = true →
     table (Script.create_product product_data env db).2 !! drawn_uuid env
     = Some (ProductRow.mk (ProductCreate.name product_data)
               (ProductCreate.price product_data)
               (Some (clock env)) (Some (clock env))))
  ∧ ((Script.create_product product_data env db).1 = false →
     table (Script.create_product product_data env db).2 = table db).
Proof.
  rewrite create_product_result.
  destruct (ProductCreate.valid product_data) eqn:Hvalid;
    [|by split_and!; [split; [done | by intros [? _]] | done | done]].
  destruct (has_NUL (ProductCreate.name product_data));
    [by split_and!; [split; [done | by intros (_ & ? & _)] | done | done]|].
  destruct (Integer_ok (ProductCreate.price product_data)) eqn:Hint.
  - apply Integer_ok_max in Hint.
    destruct (table db !! drawn_uuid env) eqn:Hu; simpl.
    + split_and!; [split; [done | by intros (_ & _ & _ & ?)] | done | done].
    + split_and!; [done | | done]. intros _. apply lookup_insert_eq.
  - simpl. split_and!; [split; [done|] | done | done].
    intros (_ & _ & Hmax & _).
    by rewrite (valid_create_Integer_ok _ Hvalid Hmax) in Hint.
Qed.

Lemma gather_sizes tasks db :
  (length (filter (λ result, result = true) (Script.gather tasks db).1)
   + size (table db))%nat
  = size (table (Script.gather tasks db).2)
  ∧ length (Script.gather tasks db).1 = length tasks.
Proof.
  revert db. induction tasks as [|[product_data env] tasks IH]; intros db;
    [done|].
  cbn [Script.gather]. rewrite create_product_result.
  destruct (ProductCreate.valid product_data);
    [destruct (has_NUL (ProductCreate.name product_data));
     [|destruct (Integer_ok (ProductCreate.price product_data));
       [destruct (table db !! drawn_uuid env) eqn:Hu|]]|];
    match goal with
    | |- context [Script.gather tasks ?db1] =>
        specialize (IH db1); destruct (Script.gather tasks db1) as [results db2]
    end; unfold logged in *; cbn [fst snd table length] in *;
    destruct IH as [IH1 IH2].
  - rewrite filter_cons_False by done. split; [done | by rewrite IH2].
  - rewrite filter_cons_False by done. split; [done | by rewrite IH2].
  - rewrite filter_cons_True by done. cbn [length].
    rewrite map_size_insert_None in IH1 by done. split; [lia | by rewrite IH2].
  - rewrite filter_cons_False by done. split; [done | by rewrite IH2].
  - rewrite filter_cons_False by done. split; [done | by rewrite IH2].
Qed.

(** X19: the count [successful] that [batch_create_products] logs is
    the number of rows that the batch added to the table, and it is at
    most the number of products asked for. *)
Theorem batch_counts_rows_added draws db :
  ((Script.batch_create_products draws db).1 + size (table db))%nat
  = size (table (Script.batch_create_products draws db).2)
  ∧ ((Script.batch_create_products draws db).1 ≤ length draws)%nat.
Proof.
  unfold Script.batch_create_products.
  set (tasks := (λ de : Script.Draw * Env,
                   (Script.generate_product_data de.1, de.2)) <$> draws).
  pose proof (gather_sizes tasks db) as [Hsize Hlen].
  destruct (Script.gather tasks db) as [results db']. simpl in *.
  split; [done|].
  etrans; [apply length_filter|]. rewrite Hlen. unfold tasks.
  by rewrite length_fmap.
Qed.


End script.

End ScriptFacts.

(** * The further properties at concrete requests *)

Lemma update_u1_null :
  update_product (uuid_str u1) null_price env2 db1
  = (Raise (HTTPException 409
              "Product update failed due to constraint violation"),
     logged db1 [SELECT u1; UPDATE u1; ROLLBACK]).
Proof. by rewrite update_product_eq, UUID_uuid_str, db1_u1. Qed.

Lemma raising_handlers_write_nothing_witness :
  update_product (uuid_str u1) null_price env2 db1
  = (Raise (HTTPException 409
              "Product update failed due to constraint violation"),
     logged db1 [SELECT u1; UPDATE u1; ROLLBACK])
  ∧ table (logged db1 [SELECT u1; UPDATE u1; ROLLBACK]) = table db1.
Proof.
  split; [apply update_u1_null|].
  destruct (raising_handlers_write_nothing env2 db1
              (HTTPException 409
                 "Product update failed due to constraint violation")
              (logged db1 [SELECT u1; UPDATE u1; ROLLBACK]))
    as (_ & _ & _ & Hupdate & _).
  apply (Hupdate (uuid_str u1) null_price), update_u1_null.
Defined.

Lemma patch_u1_price_table :
  table (app (PATCH_product (uuid_str u1) (only_price 600)) env2 db1).2
  = <[u1 := ProductRow.mk "Widget" 600 (Some 1000) (Some 2000)]> (table db1).
Proof.
  unfold app, route.
  change (ProductUpdate.valid (only_price 600)) with true. cbv beta iota.
  by rewrite update_u1_price.
Qed.

Lemma created_at_is_kept_witness :
  table db1 !! u1 = Some widget
  ∧ table (app (PATCH_product (uuid_str u1) (only_price 600)) env2 db1).2 !! u1
    = Some (ProductRow.mk "Widget" 600 (Some 1000) (Some 2000))
  ∧ ProductRow.created_at (ProductRow.mk "Widget" 600 (Some 1000) (Some 2000))
    = ProductRow.created_at widget.
Proof.
  assert (table (app (PATCH_product (uuid_str u1) (only_price 600)) env2 db1).2
            !! u1
          = Some (ProductRow.mk "Widget" 600 (Some 1000) (Some 2000))) as Hafter.
  { rewrite patch_u1_price_table. apply lookup_insert_eq. }
  split; [apply db1_u1|]. split; [exact Hafter|].
  exact (created_at_is_kept _ env2 db1 u1 _ _ db1_u1 Hafter).
Defined.

Lemma delete_removes_the_row_witness :
  delete_product (uuid_str u1) env1 db1
  = (Return "Product deleted successfully",
     mkDb (delete u1 (table db1)) [SELECT u1; DELETE u1])
  ∧ ∃ u,
      UUID (uuid_str u1) = Some u
      ∧ is_Some (table db1 !! u)
      ∧ delete u1 (table db1) = delete u (table db1)
      ∧ (∀ u', u' ≠ u → delete u1 (table db1) !! u' = table db1 !! u')
      ∧ ∀ env' product,
          (get_product (uuid_str u1) env'
             (mkDb (delete u1 (table db1)) [SELECT u1; DELETE u1])).1
            = Raise (HTTPException 404 "Product not found")
          ∧ (update_product (uuid_str u1) product env'
               (mkDb (delete u1 (table db1)) [SELECT u1; DELETE u1])).1
            = Raise (HTTPException 404 "Product not found").
Proof.
  split; [apply delete_u1|].
  exact (delete_removes_the_row (uuid_str u1) env1 db1 _ _ (delete_u1 env1)).
Defined.

Lemma create_product_conflict_witness :
  ProductCreate.valid (ProductCreate.mk "Widget" 500) = true
  ∧ has_NUL (ProductCreate.name (ProductCreate.mk "Widget" 500)) = false
  ∧ (ProductCreate.price (ProductCreate.mk "Widget" 500) ≤ 2147483647)%Z
  ∧ table db1 !! drawn_uuid env1 = Some widget
  ∧ app (POST_products (ProductCreate.mk "Widget" 500)) env1 db1
    = (mkResponse 409
         (detail_body "Product creation failed due to constraint violation"),
       logged db1 [INSERT (drawn_uuid env1); ROLLBACK]).
Proof.
  split; [reflexivity|]. split; [reflexivity|]. split; [simpl; lia|].
  split; [apply db1_u1|].
  apply (create_product_conflict _ env1 db1 widget);
    [reflexivity | reflexivity | simpl; lia | apply db1_u1].
Defined.

Lemma update_null_conflict_witness :
  UUID (uuid_str u1) = Some u1
  ∧ table db1 !! u1 = Some widget
  ∧ (ProductUpdate.name lamp_null_price = Given None
     ∨ ProductUpdate.price lamp_null_price = Given None)
  ∧ (∀ n, ProductUpdate.name lamp_null_price = Given (Some n) →
          has_NUL n = false)
  ∧ (∀ v, ProductUpdate.price lamp_null_price = Given (Some v) →
          Integer_ok v = true)
  ∧ update_product (uuid_str u1) lamp_null_price env2 db1
    = (Raise (HTTPException 409
                "Product update failed due to constraint violation"),
       logged db1 [SELECT u1; UPDATE u1; ROLLBACK]).
Proof.
  split; [apply UUID_uuid_str|]. split; [apply db1_u1|].
  split; [by right|].
  split; [by intros n [= <-]|]. split; [by intros v [=]|].
  apply (update_null_conflict _ u1 widget);
    [apply UUID_uuid_str | apply db1_u1 | by right
    | by intros n [= <-] | by intros v [=]].
Defined.

Lemma update_then_get_witness :
  update_product (uuid_str u1) (only_price 600) env2 db1
  = (Return (load u1 (ProductRow.mk "Widget" 600 (Some 1000) (Some 2000))),
     mkDb (<[u1 := ProductRow.mk "Widget" 600 (Some 1000) (Some 2000)]>
             (table db1))
          [SELECT u1; UPDATE u1; SELECT u1])
  ∧ (get_product (uuid_str u1) env1
       (mkDb (<[u1 := ProductRow.mk "Widget" 600 (Some 1000) (Some 2000)]>
                (table db1))
             [SELECT u1; UPDATE u1; SELECT u1])).1
    = Return (load u1 (ProductRow.mk "Widget" 600 (Some 1000) (Some 2000))).
Proof.
  split; [apply update_u1_price|].
  exact (update_then_get (uuid_str u1) (only_price 600) env2 env1 db1 _ _
           update_u1_price).
Defined.

Lemma run_post_widget :
  table (run [(POST_products (ProductCreate.mk "Widget" 500), env1)] empty_db)
    !! u1
  = Some widget.
Proof.
  cbn [run]. unfold app, route.
  change (ProductCreate.valid (ProductCreate.mk "Widget" 500)) with true.
  cbv beta iota. rewrite create_product_eq. cbv zeta.
  assert (table empty_db !! drawn_uuid env1 = None) as -> by apply lookup_empty.
  cbn [snd table]. apply lookup_insert_eq.
Qed.

Lemma stored_product_is_served_witness :
  UUID (uuid_str u1) = Some u1
  ∧ table (run [(POST_products (ProductCreate.mk "Widget" 500), env1)] empty_db)
      !! u1 = Some widget
  ∧ ∃ c m,
      ProductRow.created_at widget = Some c
      ∧ ProductRow.updated_at widget = Some m
      ∧ app (GET_product (uuid_str u1)) env2
          (run [(POST_products (ProductCreate.mk "Widget" 500), env1)] empty_db)
        = (mkResponse 200
             (product_body
                (ProductBase.mk u1 (ProductRow.name widget)
                   (ProductRow.price widget) c m)),
           logged
             (run [(POST_products (ProductCreate.mk "Widget" 500), env1)]
                empty_db)
             [SELECT u1]).
Proof.
  split; [apply UUID_uuid_str|]. split; [apply run_post_widget|].
  exact (stored_product_is_served _ (uuid_str u1) u1 widget env2
           (UUID_uuid_str u1) run_post_widget).
Defined.

Lemma column_price :
  column_leb "price"
  = Some (λ x y, Z.leb (ProductRow.price x.2) (ProductRow.price y.2)).
Proof. reflexivity. Qed.

Lemma list_db1 :
  get_products 1 10 0 "price" env1 db1
  = (Return [load u1 widget], logged db1 [SELECT_ALL "price" 10 0]).
Proof.
  rewrite get_products_eq, column_price. cbv zeta.
  unfold select_rows, db1. cbn [table].
  by rewrite map_to_list_singleton.
Qed.

Lemma list_returns_stored_rows_witness :
  get_products 1 10 0 "price" env1 db1
  = (Return [load u1 widget], logged db1 [SELECT_ALL "price" 10 0])
  ∧ [load u1 widget] ≠ []
  ∧ (length [load u1 widget] ≤ Z.to_nat 10)%nat
  ∧ NoDup (Product.id <$> [load u1 widget])
  ∧ Forall (λ p, ∃ r, table db1 !! Product.id p = Some r
                      ∧ p = load (Product.id p) r) [load u1 widget]
  ∧ table (logged db1 [SELECT_ALL "price" 10 0]) = table db1.
Proof.
  split; [apply list_db1|].
  exact (list_returns_stored_rows 1 10 0 "price" env1 db1 _ _ list_db1).
Defined.

Lemma db2_rows :
  map_to_list (table db2) = [(u2, gizmo); (u1, widget)]
  ∨ map_to_list (table db2) = [(u1, widget); (u2, gizmo)].
Proof.
  apply Permutation_length_2_inv. symmetry. unfold db2. cbn [table].
  rewrite map_to_list_insert by (apply lookup_singleton_ne, u1_ne_u2).
  by rewrite map_to_list_singleton.
Qed.

(** Listed by price, the two products of [db2] come cheaper first,
    whatever the order in which the table holds them. *)
Lemma list_db2 :
  get_products 1 10 0 "price" env1 db2
  = (Return [load u2 gizmo; load u1 widget],
     logged db2 [SELECT_ALL "price" 10 0]).
Proof.
  rewrite get_products_eq, column_price. cbv zeta. unfold select_rows.
  destruct db2_rows as [-> | ->]; reflexivity.
Qed.

(** The label of the column orders the rows as its name does. *)
Example list_db2_by_label :
  get_products 1 10 0 "products_price" env1 db2
  = (Return [load u2 gizmo; load u1 widget],
     logged db2 [SELECT_ALL "products_price" 10 0]).
Proof.
  rewrite get_products_eq.
  assert (column_leb "products_price"
          = Some (λ x y, Z.leb (ProductRow.price x.2) (ProductRow.price y.2)))
    as -> by reflexivity.
  cbv zeta. unfold select_rows.
  destruct db2_rows as [-> | ->]; reflexivity.
Qed.

Lemma list_by_price_is_ascending_witness :
  get_products 1 10 0 "price" env1 db2
  = (Return [load u2 gizmo; load u1 widget],
     logged db2 [SELECT_ALL "price" 10 0])
  ∧ (uuid_int (Product.id (load u1 widget))
     < uuid_int (Product.id (load u2 gizmo)))%N
  ∧ Product.price (load u2 gizmo) = Some 300
  ∧ Product.price (load u1 widget) = Some 500
  ∧ StronglySorted price_le [load u2 gizmo; load u1 widget].
Proof.
  split; [apply list_db2|]. split; [reflexivity|].
  split; [reflexivity|]. split; [reflexivity|].
  exact (list_by_price_is_ascending 1 10 0 env1 db2 _ _ list_db2).
Defined.

Lemma db1_size : (Z.of_nat (size (table db1)) ≤ 5)%Z.
Proof. unfold db1. cbn [table]. rewrite map_size_singleton. lia. Qed.

Lemma list_outside_window_witness :
  column_leb "price"
  = Some (λ x y, Z.leb (ProductRow.price x.2) (ProductRow.price y.2))
  ∧ (0 ≤ 10 < 9223372036854775808)%Z
  ∧ (0 ≤ 5 < 9223372036854775808)%Z
  ∧ ((10 : Z) = 0 ∨ (Z.of_nat (size (table db1)) ≤ 5)%Z)
  ∧ app (GET_products 1 10 5 "price") env1 db1
    = (mkResponse 200 (detail_body "No products found"),
       logged db1 [SELECT_ALL "price" 10 5]).
Proof.
  split; [apply column_price|]. split; [lia|]. split; [lia|].
  split; [right; apply db1_size|].
  apply (list_outside_window 1 10 5 "price" _ env1 db1 column_price);
    [lia | lia | right; apply db1_size].
Defined.

Lemma route_is_last_two_parts_witness :
  ["app"; "routes"; "products"] ≠ []
  ∧ Forall (λ part, ColoredFormatter.dot_free part = true)
      ["app"; "routes"; "products"]
  ∧ ColoredFormatter.route_of
      (ColoredFormatter.join "." ["app"; "routes"; "products"])
    = ColoredFormatter.join "."
        (ColoredFormatter.last_two ["app"; "routes"; "products"])
  ∧ ((length ["app"; "routes"; "products"] ≤ 2)%nat →
     ColoredFormatter.route_of
       (ColoredFormatter.join "." ["app"; "routes"; "products"])
     = ColoredFormatter.join "." ["app"; "routes"; "products"]).
Proof.
  assert (Forall (λ part, ColoredFormatter.dot_free part = true)
            ["app"; "routes"; "products"]) as Hfree.
  { repeat constructor. }
  split; [done|]. split; [exact Hfree|].
  apply (ColoredFormatterFacts.route_is_last_two_parts
           ["app"; "routes"; "products"]); [done | exact Hfree].
Defined.






(** The script is told [False] for a price that the column [Integer]
    does not hold, and for a name that holds NUL. *)
Example script_create_refused :
  (Script.create_product (ProductCreate.mk "Big" 2147483648) env1 empty_db).1
  = false
  ∧ (Script.create_product (ProductCreate.mk nul_name 5) env1 empty_db).1
    = false.
Proof. by rewrite !ScriptFacts.create_product_result. Qed.

Example generated_gadget :
  Script.generate_product_data gadget_draw
  = ProductCreate.mk "Premium Gadget Electronics" 1999.
Proof. reflexivity. Qed.
